(** * TradeXAI signal engine: indicators, SMC detectors, signal synthesis,
      trade lifecycle tracking and accuracy.

    Shallow embedding of [utils/xaiLogic.ts] (indicator helpers, detectors,
    [generateSMCSignal], [updateHitStatus], [evaluateEndOfDayResult]) and of
    [utils/tradeManager.ts] ([TradeResult], [updateLiveTrade],
    [endOfDayEvaluate], [computeAccuracy]).

    Numbers.  A TypeScript [number] is modelled by [number] below: an exact
    rational, or one of the three IEEE special values [+Infinity],
    [-Infinity], [NaN].  Arithmetic on finite values is exact in this
    embedding ([-0] is identified with [+0]); the special values follow the
    IEEE rules, so that division by zero, comparisons with [NaN] and reads
    past the end of an array ([undefined], which arithmetic and comparisons
    coerce to [NaN]) behave as they do in the source.

    The engine is embedded a second time, in [Binary64], over primitive
    floats: there every operation is the rounded one of the program.
    Properties that depend on the value of a sum, product or quotient are
    stated of that embedding, or of both. *)

From Stdlib Require Import String QArith Qround Qabs ZArith List Bool Lia Lqa.
From Stdlib Require Import Permutation.
From Stdlib Require Floats.PrimFloat Floats.FloatOps Floats.SpecFloat.
From Stdlib Require Floats.FloatAxioms.
From Stdlib Require Numbers.Cyclic.Int63.Uint63.
Import ListNotations.

Set Implicit Arguments.

(* ================================================================== *)
(** ** The [number] type *)
(* ================================================================== *)

Inductive number : Type :=
| Fin (q : Q)
| PInf
| NInf
| NaN.

Declare Scope js_scope.
Delimit Scope js_scope with js.
Bind Scope js_scope with number.

Module Num.

(** Strict comparison of rationals as a boolean. *)
Definition Qlt_bool (a b : Q) : bool := negb (Qle_bool b a).

Definition of_Z (z : Z) : number := Fin (inject_Z z).
Definition of_nat (n : nat) : number := of_Z (Z.of_nat n).

Definition neg (x : number) : number :=
  match x with
  | Fin q => Fin (- q)
  | PInf => NInf
  | NInf => PInf
  | NaN => NaN
  end.

Definition add (x y : number) : number :=
  match x, y with
  | NaN, _ | _, NaN => NaN
  | PInf, NInf | NInf, PInf => NaN
  | PInf, _ | _, PInf => PInf
  | NInf, _ | _, NInf => NInf
  | Fin a, Fin b => Fin (a + b)
  end.

Definition sub (x y : number) : number := add x (neg y).

(** Sign of a rational: [Lt] negative, [Eq] zero, [Gt] positive. *)
Definition sgn (q : Q) : comparison := (q ?= 0)%Q.

Definition mul (x y : number) : number :=
  match x, y with
  | NaN, _ | _, NaN => NaN
  | Fin a, Fin b => Fin (a * b)
  | PInf, PInf | NInf, NInf => PInf
  | PInf, NInf | NInf, PInf => NInf
  | PInf, Fin q | Fin q, PInf =>
      match sgn q with Eq => NaN | Gt => PInf | Lt => NInf end
  | NInf, Fin q | Fin q, NInf =>
      match sgn q with Eq => NaN | Gt => NInf | Lt => PInf end
  end.

Definition div (x y : number) : number :=
  match x, y with
  | NaN, _ | _, NaN => NaN
  | (PInf | NInf), (PInf | NInf) => NaN
  | Fin _, (PInf | NInf) => Fin 0
  | PInf, Fin q => match sgn q with Lt => NInf | _ => PInf end
  | NInf, Fin q => match sgn q with Lt => PInf | _ => NInf end
  | Fin a, Fin b =>
      if Qeq_bool b 0 then
        match sgn a with Eq => NaN | Gt => PInf | Lt => NInf end
      else Fin (a / b)
  end.

(** [x < y]; every comparison with [NaN] is [false]. *)
Definition lt (x y : number) : bool :=
  match x, y with
  | NaN, _ | _, NaN => false
  | Fin a, Fin b => Qlt_bool a b
  | NInf, (Fin _ | PInf) => true
  | Fin _, PInf => true
  | _, _ => false
  end.

(** [x <= y]. *)
Definition le (x y : number) : bool :=
  match x, y with
  | NaN, _ | _, NaN => false
  | Fin a, Fin b => Qle_bool a b
  | NInf, _ => true
  | _, PInf => true
  | _, _ => false
  end.

Definition gt (x y : number) : bool := lt y x.
Definition ge (x y : number) : bool := le y x.

(** Strict equality [x === y] on numbers. *)
Definition eq (x y : number) : bool :=
  match x, y with
  | Fin a, Fin b => Qeq_bool a b
  | PInf, PInf | NInf, NInf => true
  | _, _ => false
  end.

(** [Math.abs]. *)
Definition abs (x : number) : number :=
  match x with
  | Fin q => Fin (Qabs q)
  | PInf | NInf => PInf
  | NaN => NaN
  end.

(** Two-argument [Math.min] and [Math.max]: [NaN] if either is [NaN]. *)
Definition min2 (x y : number) : number :=
  match x, y with
  | NaN, _ | _, NaN => NaN
  | _, _ => if lt y x then y else x
  end.

Definition max2 (x y : number) : number :=
  match x, y with
  | NaN, _ | _, NaN => NaN
  | _, _ => if lt x y then y else x
  end.

(** [Math.min(...xs)] and [Math.max(...xs)]: the empty spread gives
    [+Infinity] and [-Infinity]. *)
Definition min_list (xs : list number) : number := fold_left min2 xs PInf.
Definition max_list (xs : list number) : number := fold_left max2 xs NInf.

(** [Math.round]: the nearest integer, ties towards [+Infinity]. *)
Definition round (x : number) : number :=
  match x with
  | Fin q => of_Z (Qfloor (q + (1 # 2)))
  | _ => x
  end.

End Num.

Notation "x + y" := (Num.add x y) : js_scope.
Notation "x - y" := (Num.sub x y) : js_scope.
Notation "x * y" := (Num.mul x y) : js_scope.
Notation "x / y" := (Num.div x y) : js_scope.
Notation "x <? y" := (Num.lt x y) : js_scope.
Notation "x <=? y" := (Num.le x y) : js_scope.
Notation "x >? y" := (Num.gt x y) : js_scope.
Notation "x >=? y" := (Num.ge x y) : js_scope.
Notation "x =? y" := (Num.eq x y) : js_scope.

(** Decimal literals of the source, as exact rationals. *)
Definition lit (num : Z) (den : positive) : number := Fin (num # den).
Notation "$ z" := (Num.of_Z z) (at level 5, format "$ z") : js_scope.

(* ================================================================== *)
(** ** Arrays *)
(* ================================================================== *)

Module Arr.
Section Arrays.
Variable A : Type.

(** Clamp a relative index the way [Array.prototype.slice] does. *)
Definition clamp (len : nat) (k : Z) : nat :=
  if (k <? 0)%Z then Z.to_nat (Z.max (Z.of_nat len + k) 0)
  else Nat.min (Z.to_nat k) len.

(** [arr.slice(start, end)]. *)
Definition slice (start end_ : Z) (arr : list A) : list A :=
  let from := clamp (length arr) start in
  let to := clamp (length arr) end_ in
  firstn (to - from) (skipn from arr).

(** [arr.slice(start)]. *)
Definition slice_from (start : Z) (arr : list A) : list A :=
  skipn (clamp (length arr) start) arr.
End Arrays.

(** [arr[i]] used as a number: a read past the end is [undefined], which
    arithmetic and relational operators turn into [NaN]. *)
Definition get (arr : list number) (i : nat) : number := nth i arr NaN.

(** [arr[arr.length - k]] for a literal [k >= 1]; the index is negative
    when the array is shorter than [k], and the read is [undefined]. *)
Definition from_end (arr : list number) (k : nat) : number :=
  if (length arr <? k)%nat then NaN else get arr (length arr - k).

(** [arr.reduce((a, b) => a + b, 0)]. *)
Definition sum (arr : list number) : number :=
  fold_left Num.add arr (Fin 0).
End Arr.

Open Scope js_scope.

(* ================================================================== *)
(** ** [utils/api.ts]: the input record *)
(* ================================================================== *)

Module Api.
(** [generateSMCSignal] reads [stock.prices || []] and likewise for the
    other arrays: an absent array is the empty list here. *)
Record StockData : Type := mkStockData {
  symbol : string;
  current : number;
  high : number;
  low : number;
  open : number;
  previousClose : number;
  prices : list number;
  highs : list number;
  lows : list number;
  volumes : list number
}.
End Api.

(* ================================================================== *)
(** ** [utils/xaiLogic.ts] *)
(* ================================================================== *)

Module XaiLogic.

(** *** Indicator helpers *)

(** [period] is a window length, a natural number: every call in the
    repository passes a positive integer literal.  In the first branch
    [data[data.length - 1] ?? 0] is the last element, or [0] when the array
    is empty. *)
Definition calculateSMA (data : list number) (period : nat) : number :=
  if (length data <? period)%nat then last data $0
  else
    let slice := Arr.slice_from (- Z.of_nat period) data in
    Arr.sum slice / Num.of_nat period.

Definition calculateEMA (data : list number) (period : nat) : number :=
  match data with
  | [] => Fin 0
  | d0 :: rest =>
      let k := $2 / (Num.of_nat period + $1) in
      fold_left (fun ema di => di * k + ema * ($1 - k)) rest d0
  end.

(** The loop of [calculateRSI]: the pair [(gains, losses)] after visiting
    the indices [data.length - period .. data.length - 1].  The loop runs
    only when [data.length >= period + 1], so [i - 1] never falls below 0. *)
Definition rsi_step (data : list number) (acc : number * number) (i : nat)
  : number * number :=
  let '(gains, losses) := acc in
  let diff := Arr.get data i - Arr.get data (i - 1) in
  if diff >? $0 then (gains + diff, losses) else (gains, losses - diff).

Definition rsi_sums (data : list number) (period : nat) : number * number :=
  fold_left (rsi_step data) (seq (length data - period) period) ($0, $0).

Definition avgGain (data : list number) (period : nat) : number :=
  fst (rsi_sums data period) / Num.of_nat period.

Definition avgLoss (data : list number) (period : nat) : number :=
  snd (rsi_sums data period) / Num.of_nat period.

Definition calculateRSI (data : list number) (period : nat) : number :=
  if (length data <? period + 1)%nat then $50
  else
    if avgLoss data period =? $0 then $100
    else
      let rs := avgGain data period / avgLoss data period in
      $100 - $100 / ($1 + rs).

(** *** SMC detection helpers *)

(** The verdict ["BULLISH" | "BEARISH" | null] is [option Bias]. *)
Inductive Bias : Type := BULLISH | BEARISH.

Definition Bias_eqb (a b : Bias) : bool :=
  match a, b with
  | BULLISH, BULLISH | BEARISH, BEARISH => true
  | _, _ => false
  end.

(** [verdict === "BULLISH"], [verdict === "BEARISH"]. *)
Definition is_bias (verdict : option Bias) (b : Bias) : bool :=
  match verdict with
  | Some v => Bias_eqb v b
  | None => false
  end.

Definition detectFairValueGap (highs lows : list number) : bool :=
  if ((length highs <? 3)%nat || (length lows <? 3)%nat)%bool then false
  else
    let i := (length highs - 3)%nat in
    let prevHigh := Arr.get highs i in
    let nextLow := Arr.get lows (i + 2) in
    Num.abs (nextLow - prevHigh) / prevHigh >? lit 5 1000.

Definition detectOrderBlock (prices : list number) : option Bias :=
  if (length prices <? 5)%nat then None
  else
    let lastFive := Arr.slice_from (-5) prices in
    let avg := Arr.sum lastFive / $5 in
    let recent := Arr.from_end prices 1 in
    if recent >? avg * lit 101 100 then Some BULLISH
    else if recent <? avg * lit 99 100 then Some BEARISH
    else None.

Definition detectVolumeSurge (volumes : list number) : bool :=
  if (length volumes <? 10)%nat then false
  else
    let avgVol := Arr.sum (Arr.slice_from (-10) volumes) / $10 in
    let latest := Arr.from_end volumes 1 in
    latest >? avgVol * lit 15 10.

Definition detectLiquiditySweep (highs lows : list number) (current : number)
  : option Bias :=
  if ((length highs <? 5)%nat || (length lows <? 5)%nat)%bool then None
  else
    let recentHigh := Num.max_list (Arr.slice (-6) (-1) highs) in
    let recentLow := Num.min_list (Arr.slice (-6) (-1) lows) in
    if ((current >? recentHigh) && (current <? Arr.from_end highs 2))%bool
    then Some BEARISH
    else if ((current <? recentLow) && (current >? Arr.from_end lows 2))%bool
    then Some BULLISH
    else None.

Definition detectMitigationBlock (prices : list number) : option Bias :=
  if (length prices <? 6)%nat then None
  else
    let last := Arr.from_end prices 1 in
    let prevLow := Num.min_list (Arr.slice (-6) (-2) prices) in
    let prevHigh := Num.max_list (Arr.slice (-6) (-2) prices) in
    if ((last >? prevLow * lit 102 100) && (last <? prevHigh))%bool
    then Some BULLISH
    else if ((last <? prevHigh * lit 98 100) && (last >? prevLow))%bool
    then Some BEARISH
    else None.

Definition detectBreakerBlock (prices : list number) : option Bias :=
  if (length prices <? 10)%nat then None
  else
    let prev5 := Arr.slice (-10) (-5) prices in
    let last5 := Arr.slice_from (-5) prices in
    let prevHigh := Num.max_list prev5 in
    let prevLow := Num.min_list prev5 in
    let currHigh := Num.max_list last5 in
    let currLow := Num.min_list last5 in
    if ((currHigh >? prevHigh) && (currLow >? prevLow))%bool then Some BULLISH
    else if ((currLow <? prevLow) && (currHigh <? prevHigh))%bool
    then Some BEARISH
    else None.

Definition detectBOS (highs lows : list number) : option Bias :=
  if ((length highs <? 6)%nat || (length lows <? 6)%nat)%bool then None
  else
    let prevHigh := Arr.from_end highs 3 in
    let currHigh := Arr.from_end highs 1 in
    let prevLow := Arr.from_end lows 3 in
    let currLow := Arr.from_end lows 1 in
    if currHigh >? prevHigh * lit 1002 1000 then Some BULLISH
    else if currLow <? prevLow * lit 998 1000 then Some BEARISH
    else None.

Definition detectCHoCH (highs lows : list number) : option Bias :=
  if ((length highs <? 8)%nat || (length lows <? 8)%nat)%bool then None
  else
    let lastHigh := Arr.from_end highs 1 in
    let secondLastHigh := Arr.from_end highs 3 in
    let lastLow := Arr.from_end lows 1 in
    let secondLastLow := Arr.from_end lows 3 in
    let brokeHigh := lastHigh >? secondLastHigh * lit 1001 1000 in
    let brokeLow := lastLow <? secondLastLow * lit 999 1000 in
    if (brokeHigh && negb brokeLow)%bool then Some BULLISH
    else if (brokeLow && negb brokeHigh)%bool then Some BEARISH
    else None.

(** *** Signal structure *)

(** [signal: "BUY" | "SELL" | "HOLD"]. *)
Inductive Direction : Type := BUY | SELL | HOLD.

(** [hitStatus]: ["ACTIVE"], ["TARGET ..."], ["STOP ..."]. *)
Inductive HitStatus : Type := ACTIVE | TARGET | STOP.

Definition HitStatus_eqb (a b : HitStatus) : bool :=
  match a, b with
  | ACTIVE, ACTIVE | TARGET, TARGET | STOP, STOP => true
  | _, _ => false
  end.

(** Optional fields ([entryPrice?], [finalPrice?], [resolved?],
    [resolvedAt?]) are [option]s; [None] is an absent field. *)
Record SignalResult : Type := mkSignalResult {
  signal : Direction;
  stoploss : number;
  targets : list number;
  confidence : number;
  explanation : string;
  hitStatus : HitStatus;
  entryPrice : option number;
  finalPrice : option number;
  resolved : option bool;
  resolvedAt : option string
}.

(** Truthiness of an optional boolean, as in [if (result.resolved)]. *)
Definition truthy (b : option bool) : bool :=
  match b with
  | Some true => true
  | _ => false
  end.

(** *** Generate SMC-based signal *)

(** The three locals [signal], [confidence], [explanation] that the body
    of [generateSMCSignal] assigns to. *)
Record Verdict : Type := mkVerdict {
  v_signal : Direction;
  v_confidence : number;
  v_explanation : string
}.

(** [if (cond) { confidence += bonus; explanation += clause; }]. *)
Definition bump (cond : bool) (bonus : number) (clause : string) (v : Verdict)
  : Verdict :=
  if cond
  then mkVerdict (v_signal v) (v_confidence v + bonus)
                 (v_explanation v ++ clause)
  else v.

(** [((current - prevClose) / prevClose) * 100]. *)
Definition change (stock : Api.StockData) : number :=
  ((Api.current stock - Api.previousClose stock) / Api.previousClose stock)
  * $100.

Definition buy_gate (stock : Api.StockData) : bool :=
  let current := Api.current stock in
  ((current >? calculateSMA (Api.prices stock) 20)
   && (current >? calculateEMA (Api.prices stock) 50)
   && (calculateRSI (Api.prices stock) 14 <? $70)
   && (change stock >? $0))%bool.

Definition sell_gate (stock : Api.StockData) : bool :=
  let current := Api.current stock in
  ((current <? calculateSMA (Api.prices stock) 20)
   && (current <? calculateEMA (Api.prices stock) 50)
   && (calculateRSI (Api.prices stock) 14 >? $30)
   && (change stock <? $0))%bool.

(** The body of the BUY block, from the assignment of ["BUY"] on. *)
Definition buy_block (stock : Api.StockData) : Verdict :=
  let prices := Api.prices stock in
  let highs := Api.highs stock in
  let lows := Api.lows stock in
  let v := mkVerdict BUY $70
             "Price above SMA20 & EMA50 with bullish momentum." in
  let v := bump (is_bias (detectBOS highs lows) BULLISH) $10
             " BOS confirmed." v in
  let v := bump (is_bias (detectCHoCH highs lows) BULLISH) $10
             " CHoCH reversal." v in
  let v := bump (is_bias (detectOrderBlock prices) BULLISH) $5
             " Bullish OB." v in
  let v := bump (is_bias (detectMitigationBlock prices) BULLISH) $5
             " Mitigation Block respected." v in
  let v := bump (is_bias (detectBreakerBlock prices) BULLISH) $5
             " Breaker Block confirmed." v in
  let v := bump (detectFairValueGap highs lows) $3 " FVG spotted." v in
  let v := bump (detectVolumeSurge (Api.volumes stock)) $3
             " Strong volume." v in
  bump (is_bias (detectLiquiditySweep highs lows (Api.current stock)) BULLISH)
       $4 " Bullish liquidity sweep." v.

(** The body of the SELL block. *)
Definition sell_block (stock : Api.StockData) : Verdict :=
  let prices := Api.prices stock in
  let highs := Api.highs stock in
  let lows := Api.lows stock in
  let v := mkVerdict SELL $70
             "Price below SMA20 & EMA50 with bearish momentum." in
  let v := bump (is_bias (detectBOS highs lows) BEARISH) $10
             " BOS confirmed." v in
  let v := bump (is_bias (detectCHoCH highs lows) BEARISH) $10
             " CHoCH reversal." v in
  let v := bump (is_bias (detectOrderBlock prices) BEARISH) $5
             " Bearish OB." v in
  let v := bump (is_bias (detectMitigationBlock prices) BEARISH) $5
             " Mitigation Block confirmed." v in
  let v := bump (is_bias (detectBreakerBlock prices) BEARISH) $5
             " Breaker Block formed." v in
  let v := bump (detectFairValueGap highs lows) $3 " FVG imbalance." v in
  let v := bump (detectVolumeSurge (Api.volumes stock)) $3
             " Heavy selling volume." v in
  bump (is_bias (detectLiquiditySweep highs lows (Api.current stock)) BEARISH)
       $4 " Bearish liquidity sweep." v.

(** The two [if] statements in sequence: the SELL block runs after the BUY
    block and overwrites its assignments when its own gate holds. *)
Definition combined_logic (stock : Api.StockData) : Verdict :=
  let v := mkVerdict HOLD $50 "Neutral: waiting for confirmation." in
  let v := if buy_gate stock then buy_block stock else v in
  if sell_gate stock then sell_block stock else v.

Definition generateSMCSignal (stock : Api.StockData) : SignalResult :=
  let current := Api.current stock in
  let v := combined_logic stock in
  let signal := v_signal v in
  let confidence := Num.min2 (v_confidence v) $99 in
  let stoploss :=
    match signal with
    | BUY => current * lit 985 1000
    | SELL => current * lit 1015 1000
    | HOLD => current
    end in
  let targets :=
    match signal with
    | BUY => [current * lit 101 100; current * lit 102 100;
              current * lit 103 100]
    | SELL => [current * lit 99 100; current * lit 98 100;
               current * lit 97 100]
    | HOLD => [current]
    end in
  {| signal := signal;
     stoploss := stoploss;
     targets := targets;
     confidence := confidence;
     explanation := v_explanation v;
     hitStatus := ACTIVE;
     entryPrice := Some current;
     finalPrice := None;
     resolved := Some false;
     resolvedAt := None |}.

(** *** Live update tracking *)

(** [{ ...result, hitStatus, explanation, resolved: true,
       resolvedAt: new Date().toISOString(), finalPrice }].  The clock read
    is the argument [now]. *)
Definition resolve (result : SignalResult) (status : HitStatus)
    (text : string) (now : string) (price : number) : SignalResult :=
  {| signal := signal result;
     stoploss := stoploss result;
     targets := targets result;
     confidence := confidence result;
     explanation := text;
     hitStatus := status;
     entryPrice := entryPrice result;
     finalPrice := Some price;
     resolved := Some true;
     resolvedAt := Some now |}.

Definition updateHitStatus (now : string) (result : SignalResult)
    (currentPrice : number) : SignalResult :=
  if truthy (resolved result) then result
  else
    match signal result with
    | BUY =>
        if currentPrice <=? stoploss result
        then resolve result STOP "Stoploss hit." now currentPrice
        else if currentPrice >=? Arr.get (targets result) 0
        then resolve result TARGET "Target 1 hit." now currentPrice
        else result
    | SELL =>
        if currentPrice >=? stoploss result
        then resolve result STOP "Stoploss hit." now currentPrice
        else if currentPrice <=? Arr.get (targets result) 0
        then resolve result TARGET "Target 1 hit." now currentPrice
        else result
    | HOLD => result
    end.

(** *** End-of-day evaluation *)

Definition evaluateEndOfDayResult (now : string) (signal_ : SignalResult)
    (dayHigh dayLow closePrice : number) : SignalResult :=
  if truthy (resolved signal_) then signal_
  else
    let '(finalStatus, finalExplanation) :=
      match signal signal_ with
      | BUY =>
          if dayLow <=? stoploss signal_
          then (STOP, "Stoploss hit intraday."%string)
          else if dayHigh >=? Arr.get (targets signal_) 0
          then (TARGET, "Target reached."%string)
          else (ACTIVE, explanation signal_)
      | SELL =>
          if dayHigh >=? stoploss signal_
          then (STOP, "Stoploss hit intraday."%string)
          else if dayLow <=? Arr.get (targets signal_) 0
          then (TARGET, "Target reached."%string)
          else (ACTIVE, explanation signal_)
      | HOLD => (ACTIVE, explanation signal_)
      end in
    resolve signal_ finalStatus finalExplanation now closePrice.

End XaiLogic.

(* ================================================================== *)
(** ** [utils/tradeManager.ts] *)
(* ================================================================== *)

Module TradeManager.

(** [bos?: "BOS" | "CHoCH" | null]. *)
Inductive StructureTag : Type := BOS | CHoCH.

Record TradeResult : Type := mkTradeResult {
  symbol : string;
  signal : XaiLogic.Direction;
  stoploss : number;
  targets : list number;
  confidence : number;
  hitStatus : XaiLogic.HitStatus;
  explanation : option string;
  entry : option number;
  finalPrice : option number;
  resolved : option bool;
  resolvedAt : option string;
  bos : option StructureTag
}.

(** Truthiness of an optional number, as in [signal.entryPrice && ...]:
    absent, [0] and [NaN] are falsy. *)
Definition truthy_number (x : option number) : bool :=
  match x with
  | Some (Fin q) => negb (Qeq_bool q 0)
  | Some NaN | None => false
  | Some _ => true
  end.

Definition signalToTradeResult (signal_ : XaiLogic.SignalResult)
    (symbol_ : string) : TradeResult :=
  let entryPrice := match XaiLogic.entryPrice signal_ with
                    | Some e => e
                    | None => NaN
                    end in
  let first := Arr.get (XaiLogic.targets signal_) 0 in
  let bos_ :=
    if (truthy_number (XaiLogic.entryPrice signal_)
        && (0 <? length (XaiLogic.targets signal_))%nat)%bool
    then
      match XaiLogic.signal signal_ with
      | XaiLogic.BUY => Some (if entryPrice >? first then BOS else CHoCH)
      | XaiLogic.SELL => Some (if entryPrice <? first then BOS else CHoCH)
      | XaiLogic.HOLD => None
      end
    else None in
  {| symbol := symbol_;
     signal := XaiLogic.signal signal_;
     stoploss := XaiLogic.stoploss signal_;
     targets := XaiLogic.targets signal_;
     confidence := XaiLogic.confidence signal_;
     hitStatus := XaiLogic.hitStatus signal_;
     explanation := Some (XaiLogic.explanation signal_);
     entry := XaiLogic.entryPrice signal_;
     finalPrice := XaiLogic.finalPrice signal_;
     resolved := XaiLogic.resolved signal_;
     resolvedAt := XaiLogic.resolvedAt signal_;
     bos := bos_ |}.

(** The [SignalResult] literal both wrappers build from a trade. *)
Definition as_signal (trade : TradeResult) : XaiLogic.SignalResult :=
  {| XaiLogic.signal := signal trade;
     XaiLogic.stoploss := stoploss trade;
     XaiLogic.targets := targets trade;
     XaiLogic.confidence := confidence trade;
     XaiLogic.hitStatus := hitStatus trade;
     XaiLogic.explanation :=
       match explanation trade with
       | Some e => e
       | None => "No explanation"
       end;
     XaiLogic.entryPrice := entry trade;
     XaiLogic.resolved :=
       match resolved trade with
       | Some b => Some b
       | None => Some false
       end;
     XaiLogic.finalPrice := finalPrice trade;
     XaiLogic.resolvedAt := None |}.

(** [{ ...trade, hitStatus, resolved, finalPrice, resolvedAt, explanation }]
    with the five fields read from [updatedSignal]. *)
Definition merge (trade : TradeResult) (updatedSignal : XaiLogic.SignalResult)
  : TradeResult :=
  {| symbol := symbol trade;
     signal := signal trade;
     stoploss := stoploss trade;
     targets := targets trade;
     confidence := confidence trade;
     hitStatus := XaiLogic.hitStatus updatedSignal;
     explanation := Some (XaiLogic.explanation updatedSignal);
     entry := entry trade;
     finalPrice := XaiLogic.finalPrice updatedSignal;
     resolved := XaiLogic.resolved updatedSignal;
     resolvedAt := XaiLogic.resolvedAt updatedSignal;
     bos := bos trade |}.

Definition updateLiveTrade (now : string) (trade : TradeResult)
    (currentPrice : number) : TradeResult :=
  merge trade (XaiLogic.updateHitStatus now (as_signal trade) currentPrice).

Definition endOfDayEvaluate (now : string) (trade : TradeResult)
    (dayHigh dayLow closePrice : number) : TradeResult :=
  merge trade
    (XaiLogic.evaluateEndOfDayResult now (as_signal trade)
       dayHigh dayLow closePrice).

(** [trades.filter((t) => t.resolved)]. *)
Definition resolvedTrades (trades : list TradeResult) : list TradeResult :=
  filter (fun t => XaiLogic.truthy (resolved t)) trades.

(** [resolvedTrades.filter((t) => t.hitStatus === "TARGET ...").length]. *)
Definition success (trades : list TradeResult) : nat :=
  length (filter (fun t => XaiLogic.HitStatus_eqb (hitStatus t) XaiLogic.TARGET)
            (resolvedTrades trades)).

Definition computeAccuracy (trades : list TradeResult) : number :=
  if (length (resolvedTrades trades) =? 0)%nat then $0
  else
    Num.round
      ((Num.of_nat (success trades)
        / Num.of_nat (length (resolvedTrades trades))) * $100).

End TradeManager.

(* ================================================================== *)
(** ** Vocabulary of the properties *)
(* ================================================================== *)

Import XaiLogic.

(** *** Confidence bonuses *)

(** The bonus of one detector: its weight when it is aligned with the
    direction of the signal, nothing otherwise. *)
Definition bonus (aligned : bool) (weight : Z) : Z :=
  if aligned then weight else 0%Z.

(** The sum of the bonuses of the aligned detectors, as the weight table
    lists them: BOS +10, CHoCH +10, Order Block +5, Mitigation Block +5,
    Breaker Block +5, Fair Value Gap +3, Volume Surge +3, Liquidity
    Sweep +4.  The two boolean detectors count for either direction. *)
Definition aligned_bonuses (stock : Api.StockData) (dir : Bias) : Z :=
  let prices := Api.prices stock in
  let highs := Api.highs stock in
  let lows := Api.lows stock in
  (bonus (is_bias (detectBOS highs lows) dir) 10
   + bonus (is_bias (detectCHoCH highs lows) dir) 10
   + bonus (is_bias (detectOrderBlock prices) dir) 5
   + bonus (is_bias (detectMitigationBlock prices) dir) 5
   + bonus (is_bias (detectBreakerBlock prices) dir) 5
   + bonus (detectFairValueGap highs lows) 3
   + bonus (detectVolumeSurge (Api.volumes stock)) 3
   + bonus (is_bias (detectLiquiditySweep highs lows (Api.current stock)) dir)
       4)%Z.

(** *** Breaches of a level *)

(** A day (or, with [dayHigh = dayLow = price], a tick) breaches a level of
    the signal: the stoploss or the first target, on the side that the
    direction of the signal watches.  A HOLD signal watches no level. *)
Definition breaches (s : SignalResult) (dayHigh dayLow : number) : bool :=
  match signal s with
  | BUY => (dayLow <=? stoploss s) || (dayHigh >=? Arr.get (targets s) 0)
  | SELL => (dayHigh >=? stoploss s) || (dayLow <=? Arr.get (targets s) 0)
  | HOLD => false
  end.

(** *** Counting trades *)

Definition is_resolved (t : TradeManager.TradeResult) : bool :=
  truthy (TradeManager.resolved t).

Definition is_target (t : TradeManager.TradeResult) : bool :=
  HitStatus_eqb (TradeManager.hitStatus t) TARGET.

(** [countWhere]. *)
Definition countWhere (p : TradeManager.TradeResult -> bool)
    (trades : list TradeManager.TradeResult) : nat :=
  length (filter p trades).

(** [round(100 * hits / resolved)], and [0] when nothing is resolved. *)
Definition accuracy_formula (hits resolved_ : nat) : number :=
  if (resolved_ =? 0)%nat then $0
  else Num.round ($100 * Num.of_nat hits / Num.of_nat resolved_).

(** The formula with both counts taken over the full collection: every
    trade whose status is TARGET in the numerator, every resolved trade in
    the denominator. *)
Definition accuracy_over_collection (trades : list TradeManager.TradeResult)
  : number :=
  accuracy_formula (countWhere is_target trades)
                   (countWhere is_resolved trades).

(** *** Means of finite volumes *)

(** Sum of rationals, from the left as [reduce] folds. *)
Definition Qsum (qs : list Q) : Q := fold_left Qplus qs 0%Q.

(** The [n] samples that precede the latest one. *)
Definition preceding (n : nat) (qs : list Q) : list Q :=
  firstn n (skipn (length qs - S n) qs).

(** *** Losses of a price series *)

(** The deltas [data[i] - data[i - 1]] over the last [period] indices. *)
Definition last_deltas (data : list number) (period : nat) : list number :=
  map (fun i => Arr.get data i - Arr.get data (i - 1))
      (seq (length data - period) period).

(** The loss carried by one delta: nothing for a rise, the size of the
    fall otherwise. *)
Definition loss (diff : number) : number :=
  if diff >? $0 then $0 else Num.neg diff.

(** The average loss over the last [period] deltas. *)
Definition average_loss (data : list number) (period : nat) : number :=
  Arr.sum (map loss (last_deltas data period)) / Num.of_nat period.

(** *** Sample inputs *)

Definition rising_closes : list Z :=
  [100; 102; 101; 103; 102; 104; 103; 105; 104; 106; 105;
   107; 106; 108; 107; 109; 108; 110; 109; 111; 110; 112]%Z.

Definition falling_closes : list Z :=
  [200; 198; 199; 197; 198; 196; 197; 195; 196; 194; 195;
   193; 194; 192; 193; 191; 192; 190; 191; 189; 190; 188]%Z.

(** A stock built from a list of closes: highs one above and lows one
    below each close, constant volume.  [rising_closes] climbs by 2 and
    pulls back by 1, [falling_closes] is its mirror. *)
Definition series (sym : string) (closes : list Z) (cur prev : Z)
  : Api.StockData :=
  {| Api.symbol := sym;
     Api.current := $cur;
     Api.high := $(cur + 1);
     Api.low := $(cur - 1);
     Api.open := $prev;
     Api.previousClose := $prev;
     Api.prices := map Num.of_Z closes;
     Api.highs := map (fun z => $(z + 1)) closes;
     Api.lows := map (fun z => $(z - 1)) closes;
     Api.volumes := map (fun _ => $1000) closes |}.

Definition buy_sample : Api.StockData := series "UP" rising_closes 112 110.
Definition sell_sample : Api.StockData := series "DOWN" falling_closes 188 190.

(** The quote-only fallback of the data layer: no history and a previous
    close of 0. *)
Definition quote_only_sample : Api.StockData :=
  {| Api.symbol := "Q";
     Api.current := $110; Api.high := $0; Api.low := $0; Api.open := $0;
     Api.previousClose := $0;
     Api.prices := []; Api.highs := []; Api.lows := []; Api.volumes := [] |}.

(** A signal with stoploss 95 and targets 105, 110, 115. *)
Definition sample_signal (dir : Direction) (status : HitStatus)
    (res : option bool) : SignalResult :=
  {| signal := dir;
     stoploss := $95;
     targets := [$105; $110; $115];
     confidence := $70;
     explanation := "Price above SMA20 & EMA50 with bullish momentum.";
     hitStatus := status;
     entryPrice := Some $100;
     finalPrice := None;
     resolved := res;
     resolvedAt := None |}.

(** A trade with the given status and resolution flag. *)
Definition sample_trade (sym : string) (status : HitStatus)
    (res : option bool) : TradeManager.TradeResult :=
  {| TradeManager.symbol := sym;
     TradeManager.signal := BUY;
     TradeManager.stoploss := lit 985 10;
     TradeManager.targets := [$101; $102; $103];
     TradeManager.confidence := $70;
     TradeManager.hitStatus := status;
     TradeManager.explanation := None;
     TradeManager.entry := Some $100;
     TradeManager.finalPrice := None;
     TradeManager.resolved := res;
     TradeManager.resolvedAt := None;
     TradeManager.bos := None |}.

(** A collection holding a trade whose status is TARGET while its
    [resolved] flag is still false, next to a resolved stop. *)
Definition unresolved_target_trades : list TradeManager.TradeResult :=
  [sample_trade "A" TARGET (Some false); sample_trade "B" STOP (Some true)].

(** Ten volumes of 100 followed by a latest volume of 155. *)
Definition surge_sample : list Q := repeat 100%Q 10 ++ [155%Q].

Definition midnight : string := "2025-01-01T00:00:00.000Z".

(** *** Runs of the tracker *)

(** The status and the [resolved] flag agree: the record is resolved
    exactly when its status is no longer ACTIVE. *)
Definition consistent (s : SignalResult) : bool :=
  Bool.eqb (truthy (resolved s)) (negb (HitStatus_eqb (hitStatus s) ACTIVE)).

(** A live feed: [updateHitStatus] applied tick after tick, each tick with
    the time it is processed at and its price. *)
Definition run_ticks (ticks : list (string * number)) (s : SignalResult)
  : SignalResult :=
  fold_left (fun acc tick => updateHitStatus (fst tick) acc (snd tick))
            ticks s.

(* ================================================================== *)
(** ** [api/fetchStockData.ts]: sanitising the series *)
(* ================================================================== *)

Module FetchStockData.

(** [Number.isFinite(n)]. *)
Definition isFinite (n : number) : bool :=
  match n with
  | Fin _ => true
  | _ => false
  end.

(** [x || y] on numbers: [y] when [x] is [0] or [NaN]. *)
Definition or_else (x y : number) : number :=
  match x with
  | Fin q => if Qeq_bool q 0 then y else x
  | NaN => y
  | _ => x
  end.

(** The loop of [sanitizeArray] from a given [lastValid]: the values it
    pushes for the remaining elements, in order. *)
Fixpoint sanitize_from (lastValid : number) (arr : list number)
  : list number :=
  match arr with
  | [] => []
  | n :: rest =>
      if (negb (isFinite n) || (n <=? $0))%bool
      then or_else lastValid $1 :: sanitize_from lastValid rest
      else n :: sanitize_from n rest
  end.

Definition sanitizeArray (arr : list number) : list number :=
  sanitize_from $0 arr.

End FetchStockData.

(* ================================================================== *)
(** ** [screens/HomeScreen.tsx]: what the screen stores *)
(* ================================================================== *)

Module HomeScreen.

(** [[...trades.filter((t) => t.symbol !== s), trade]] of [loadData]. *)
Definition replaceTrade (trades : list TradeManager.TradeResult)
    (s : string) (trade : TradeManager.TradeResult)
  : list TradeManager.TradeResult :=
  filter (fun t => negb (String.eqb (TradeManager.symbol t) s)) trades
  ++ [trade].

(** [trades.find((t) => t.symbol === symbol)]. *)
Definition findTrade (trades : list TradeManager.TradeResult) (s : string)
  : option TradeManager.TradeResult :=
  find (fun t => String.eqb (TradeManager.symbol t) s) trades.

(** The signal literal the live-feed callback builds from a stored trade:
    [explanation: existingTrade.explanation || ""], the other fields
    copied, no [resolvedAt]. *)
Definition feed_signal (existingTrade : TradeManager.TradeResult)
  : SignalResult :=
  {| signal := TradeManager.signal existingTrade;
     stoploss := TradeManager.stoploss existingTrade;
     targets := TradeManager.targets existingTrade;
     confidence := TradeManager.confidence existingTrade;
     hitStatus := TradeManager.hitStatus existingTrade;
     explanation :=
       match TradeManager.explanation existingTrade with
       | Some e => e
       | None => ""
       end;
     entryPrice := TradeManager.entry existingTrade;
     resolved := TradeManager.resolved existingTrade;
     finalPrice := TradeManager.finalPrice existingTrade;
     resolvedAt := None |}.

(** [{ ...existingTrade, hitStatus: updateHitStatus({...}, data.current)
       .hitStatus }]: the trade that the live-feed callback writes back. *)
Definition updatedTrade (now : string)
    (existingTrade : TradeManager.TradeResult) (current : number)
  : TradeManager.TradeResult :=
  {| TradeManager.symbol := TradeManager.symbol existingTrade;
     TradeManager.signal := TradeManager.signal existingTrade;
     TradeManager.stoploss := TradeManager.stoploss existingTrade;
     TradeManager.targets := TradeManager.targets existingTrade;
     TradeManager.confidence := TradeManager.confidence existingTrade;
     TradeManager.hitStatus :=
       hitStatus (updateHitStatus now (feed_signal existingTrade) current);
     TradeManager.explanation := TradeManager.explanation existingTrade;
     TradeManager.entry := TradeManager.entry existingTrade;
     TradeManager.finalPrice := TradeManager.finalPrice existingTrade;
     TradeManager.resolved := TradeManager.resolved existingTrade;
     TradeManager.resolvedAt := TradeManager.resolvedAt existingTrade;
     TradeManager.bos := TradeManager.bos existingTrade |}.

(** [trades.map((t) => (t.symbol === symbol ? updatedTrade : t))]. *)
Definition storeUpdated (trades : list TradeManager.TradeResult)
    (s : string) (updated : TradeManager.TradeResult)
  : list TradeManager.TradeResult :=
  map (fun t => if String.eqb (TradeManager.symbol t) s then updated else t)
      trades.

(** The live-feed callback on the stored collection: find the trade of
    the symbol, and if there is one store its updated copy. *)
Definition onTick (now : string) (trades : list TradeManager.TradeResult)
    (s : string) (current : number) : list TradeManager.TradeResult :=
  match findTrade trades s with
  | Some existingTrade =>
      storeUpdated trades s (updatedTrade now existingTrade current)
  | None => trades
  end.

End HomeScreen.

(** *** Prices *)

(** A finite, strictly positive number: what [sanitizeArray] lets
    through. *)
Definition is_price (n : number) : bool :=
  match n with
  | Fin q => Num.Qlt_bool 0 q
  | _ => false
  end.

(** *** More sample inputs *)


(** A stock with the bars and volumes taken away, the closes kept. *)
Definition without_bars (stock : Api.StockData) : Api.StockData :=
  {| Api.symbol := Api.symbol stock;
     Api.current := Api.current stock;
     Api.high := Api.high stock;
     Api.low := Api.low stock;
     Api.open := Api.open stock;
     Api.previousClose := Api.previousClose stock;
     Api.prices := Api.prices stock;
     Api.highs := [];
     Api.lows := [];
     Api.volumes := [] |}.

(** Two stored trades: an open BUY on "A", a resolved stop on "B". *)
Definition stored_trades : list TradeManager.TradeResult :=
  [sample_trade "A" ACTIVE (Some false); sample_trade "B" STOP (Some true)].

(** A raw series as the data layer may receive it: a missing first
    sample, a price, a zero, an infinity. *)
Definition raw_series : list number := [NaN; $100; $0; PInf].

(* ================================================================== *)
(** ** The engine in binary64 *)
(* ================================================================== *)

(** The definitions of [XaiLogic] once more, with every [number] an IEEE
    binary64 value (a primitive float) and every operation the rounded
    one of the source.  Evaluating them gives the value the program
    computes, bit for bit; they are used where a property hinges on
    rounding, underflow or overflow. *)

Abbreviation float := PrimFloat.float (only parsing).

Declare Scope f64_scope.
Delimit Scope f64_scope with f64.

Module F64.

Definition NaN : float := PrimFloat.nan.

(** An integer as a double; exact below [2^53] in magnitude. *)
Definition of_Z (z : Z) : float :=
  if (z <? 0)%Z
  then PrimFloat.opp (PrimFloat.of_uint63 (Uint63.of_Z (- z)))
  else PrimFloat.of_uint63 (Uint63.of_Z z).

Definition of_nat (n : nat) : float := of_Z (Z.of_nat n).

(** A decimal literal [num/den] of the source: the double nearest to it,
    which the correctly rounded quotient of two exact integers is. *)
Definition lit (num : Z) (den : positive) : float :=
  PrimFloat.div (of_Z num) (of_Z (Zpos den)).

Definition add (x y : float) : float := PrimFloat.add x y.
Definition sub (x y : float) : float := PrimFloat.sub x y.
Definition mul (x y : float) : float := PrimFloat.mul x y.
Definition div (x y : float) : float := PrimFloat.div x y.
Definition lt (x y : float) : bool := PrimFloat.ltb x y.
Definition le (x y : float) : bool := PrimFloat.leb x y.
Definition gt (x y : float) : bool := PrimFloat.ltb y x.
Definition ge (x y : float) : bool := PrimFloat.leb y x.
Definition eq (x y : float) : bool := PrimFloat.eqb x y.
Definition abs (x : float) : float := PrimFloat.abs x.

(** Two-argument [Math.min] and [Math.max]: [NaN] if either is [NaN], and
    [-0] below [+0]. *)
Definition min2 (x y : float) : float :=
  if (PrimFloat.is_nan x || PrimFloat.is_nan y)%bool then NaN
  else if PrimFloat.ltb y x then y
  else if PrimFloat.ltb x y then x
  else if PrimFloat.get_sign x then x else y.

Definition max2 (x y : float) : float :=
  if (PrimFloat.is_nan x || PrimFloat.is_nan y)%bool then NaN
  else if PrimFloat.ltb x y then y
  else if PrimFloat.ltb y x then x
  else if PrimFloat.get_sign x then y else x.

Definition min_list (xs : list float) : float :=
  fold_left min2 xs PrimFloat.infinity.
Definition max_list (xs : list float) : float :=
  fold_left max2 xs PrimFloat.neg_infinity.

(** [Math.round]: the nearest integer, ties towards [+Infinity]; a double
    with a non-negative exponent is an integer already, and a result of
    zero keeps the sign of the argument. *)
Definition round (x : float) : float :=
  match FloatOps.Prim2SF x with
  | SpecFloat.S754_finite s m e =>
      if (0 <=? e)%Z then x
      else
        let q := (((if s then Zneg m else Zpos m) # 1)
                  * (1 # (2 ^ Z.to_pos (- e))))%Q in
        let z := Qfloor (q + (1 # 2)) in
        if (z =? 0)%Z
        then (if s then PrimFloat.neg_zero else PrimFloat.zero)
        else of_Z z
  | _ => x
  end.

End F64.

Notation "x + y" := (F64.add x y) : f64_scope.
Notation "x - y" := (F64.sub x y) : f64_scope.
Notation "x * y" := (F64.mul x y) : f64_scope.
Notation "x / y" := (F64.div x y) : f64_scope.
Notation "x <? y" := (F64.lt x y) : f64_scope.
Notation "x <=? y" := (F64.le x y) : f64_scope.
Notation "x >? y" := (F64.gt x y) : f64_scope.
Notation "x >=? y" := (F64.ge x y) : f64_scope.
Notation "x =? y" := (F64.eq x y) : f64_scope.
Notation "$ z" := (F64.of_Z z) (at level 5, format "$ z") : f64_scope.

Module Arr64.

Definition get (arr : list float) (i : nat) : float := nth i arr F64.NaN.

Definition from_end (arr : list float) (k : nat) : float :=
  if (length arr <? k)%nat then F64.NaN else get arr (length arr - k).

Definition sum (arr : list float) : float :=
  fold_left F64.add arr (F64.of_Z 0).

End Arr64.

Module Binary64.

Local Open Scope f64_scope.

Record StockData : Type := mkStockData {
  symbol : string;
  current : float;
  high : float;
  low : float;
  open : float;
  previousClose : float;
  prices : list float;
  highs : list float;
  lows : list float;
  volumes : list float
}.

(** *** Indicator helpers *)

Definition calculateSMA (data : list float) (period : nat) : float :=
  if (length data <? period)%nat then last data $0
  else
    let slice := Arr.slice_from (- Z.of_nat period) data in
    Arr64.sum slice / F64.of_nat period.

Definition calculateEMA (data : list float) (period : nat) : float :=
  match data with
  | [] => $0
  | d0 :: rest =>
      let k := $2 / (F64.of_nat period + $1) in
      fold_left (fun ema di => di * k + ema * ($1 - k)) rest d0
  end.

(** The loop of [calculateRSI]: the pair [(gains, losses)] after visiting
    the indices [data.length - period .. data.length - 1].  The loop runs
    only when [data.length >= period + 1], so [i - 1] never falls below 0. *)
Definition rsi_step (data : list float) (acc : float * float) (i : nat)
  : float * float :=
  let '(gains, losses) := acc in
  let diff := Arr64.get data i - Arr64.get data (i - 1) in
  if diff >? $0 then (gains + diff, losses) else (gains, losses - diff).

Definition rsi_sums (data : list float) (period : nat) : float * float :=
  fold_left (rsi_step data) (seq (length data - period) period) ($0, $0).

Definition avgGain (data : list float) (period : nat) : float :=
  fst (rsi_sums data period) / F64.of_nat period.

Definition avgLoss (data : list float) (period : nat) : float :=
  snd (rsi_sums data period) / F64.of_nat period.

Definition calculateRSI (data : list float) (period : nat) : float :=
  if (length data <? period + 1)%nat then $50
  else
    if avgLoss data period =? $0 then $100
    else
      let rs := avgGain data period / avgLoss data period in
      $100 - $100 / ($1 + rs).

(** *** SMC detection helpers *)

Definition detectFairValueGap (highs lows : list float) : bool :=
  if ((length highs <? 3)%nat || (length lows <? 3)%nat)%bool then false
  else
    let i := (length highs - 3)%nat in
    let prevHigh := Arr64.get highs i in
    let nextLow := Arr64.get lows (i + 2) in
    F64.abs (nextLow - prevHigh) / prevHigh >? F64.lit 5 1000.

Definition detectOrderBlock (prices : list float) : option Bias :=
  if (length prices <? 5)%nat then None
  else
    let lastFive := Arr.slice_from (-5) prices in
    let avg := Arr64.sum lastFive / $5 in
    let recent := Arr64.from_end prices 1 in
    if recent >? avg * F64.lit 101 100 then Some BULLISH
    else if recent <? avg * F64.lit 99 100 then Some BEARISH
    else None.

Definition detectVolumeSurge (volumes : list float) : bool :=
  if (length volumes <? 10)%nat then false
  else
    let avgVol := Arr64.sum (Arr.slice_from (-10) volumes) / $10 in
    let latest := Arr64.from_end volumes 1 in
    latest >? avgVol * F64.lit 15 10.

Definition detectLiquiditySweep (highs lows : list float) (current : float)
  : option Bias :=
  if ((length highs <? 5)%nat || (length lows <? 5)%nat)%bool then None
  else
    let recentHigh := F64.max_list (Arr.slice (-6) (-1) highs) in
    let recentLow := F64.min_list (Arr.slice (-6) (-1) lows) in
    if ((current >? recentHigh) && (current <? Arr64.from_end highs 2))%bool
    then Some BEARISH
    else if ((current <? recentLow) && (current >? Arr64.from_end lows 2))%bool
    then Some BULLISH
    else None.

Definition detectMitigationBlock (prices : list float) : option Bias :=
  if (length prices <? 6)%nat then None
  else
    let last := Arr64.from_end prices 1 in
    let prevLow := F64.min_list (Arr.slice (-6) (-2) prices) in
    let prevHigh := F64.max_list (Arr.slice (-6) (-2) prices) in
    if ((last >? prevLow * F64.lit 102 100) && (last <? prevHigh))%bool
    then Some BULLISH
    else if ((last <? prevHigh * F64.lit 98 100) && (last >? prevLow))%bool
    then Some BEARISH
    else None.

Definition detectBreakerBlock (prices : list float) : option Bias :=
  if (length prices <? 10)%nat then None
  else
    let prev5 := Arr.slice (-10) (-5) prices in
    let last5 := Arr.slice_from (-5) prices in
    let prevHigh := F64.max_list prev5 in
    let prevLow := F64.min_list prev5 in
    let currHigh := F64.max_list last5 in
    let currLow := F64.min_list last5 in
    if ((currHigh >? prevHigh) && (currLow >? prevLow))%bool then Some BULLISH
    else if ((currLow <? prevLow) && (currHigh <? prevHigh))%bool
    then Some BEARISH
    else None.

Definition detectBOS (highs lows : list float) : option Bias :=
  if ((length highs <? 6)%nat || (length lows <? 6)%nat)%bool then None
  else
    let prevHigh := Arr64.from_end highs 3 in
    let currHigh := Arr64.from_end highs 1 in
    let prevLow := Arr64.from_end lows 3 in
    let currLow := Arr64.from_end lows 1 in
    if currHigh >? prevHigh * F64.lit 1002 1000 then Some BULLISH
    else if currLow <? prevLow * F64.lit 998 1000 then Some BEARISH
    else None.

Definition detectCHoCH (highs lows : list float) : option Bias :=
  if ((length highs <? 8)%nat || (length lows <? 8)%nat)%bool then None
  else
    let lastHigh := Arr64.from_end highs 1 in
    let secondLastHigh := Arr64.from_end highs 3 in
    let lastLow := Arr64.from_end lows 1 in
    let secondLastLow := Arr64.from_end lows 3 in
    let brokeHigh := lastHigh >? secondLastHigh * F64.lit 1001 1000 in
    let brokeLow := lastLow <? secondLastLow * F64.lit 999 1000 in
    if (brokeHigh && negb brokeLow)%bool then Some BULLISH
    else if (brokeLow && negb brokeHigh)%bool then Some BEARISH
    else None.

(** *** Signal structure *)

(** Optional fields ([entryPrice?], [finalPrice?], [resolved?],
    [resolvedAt?]) are [option]s; [None] is an absent field. *)
Record SignalResult : Type := mkSignalResult {
  signal : Direction;
  stoploss : float;
  targets : list float;
  confidence : float;
  explanation : string;
  hitStatus : HitStatus;
  entryPrice : option float;
  finalPrice : option float;
  resolved : option bool;
  resolvedAt : option string
}.

(** *** Generate SMC-based signal *)

(** The three locals [signal], [confidence], [explanation] that the body
    of [generateSMCSignal] assigns to. *)
Record Verdict : Type := mkVerdict {
  v_signal : Direction;
  v_confidence : float;
  v_explanation : string
}.

(** [if (cond) { confidence += bonus; explanation += clause; }]. *)
Definition bump (cond : bool) (bonus : float) (clause : string) (v : Verdict)
  : Verdict :=
  if cond
  then mkVerdict (v_signal v) (v_confidence v + bonus)
                 (v_explanation v ++ clause)
  else v.

(** [((current - prevClose) / prevClose) * 100]. *)
Definition change (stock : StockData) : float :=
  ((current stock - previousClose stock) / previousClose stock)
  * $100.

Definition buy_gate (stock : StockData) : bool :=
  let current := current stock in
  ((current >? calculateSMA (prices stock) 20)
   && (current >? calculateEMA (prices stock) 50)
   && (calculateRSI (prices stock) 14 <? $70)
   && (change stock >? $0))%bool.

Definition sell_gate (stock : StockData) : bool :=
  let current := current stock in
  ((current <? calculateSMA (prices stock) 20)
   && (current <? calculateEMA (prices stock) 50)
   && (calculateRSI (prices stock) 14 >? $30)
   && (change stock <? $0))%bool.

(** The body of the BUY block, from the assignment of ["BUY"] on. *)
Definition buy_block (stock : StockData) : Verdict :=
  let prices := prices stock in
  let highs := highs stock in
  let lows := lows stock in
  let v := mkVerdict BUY $70
             "Price above SMA20 & EMA50 with bullish momentum." in
  let v := bump (is_bias (detectBOS highs lows) BULLISH) $10
             " BOS confirmed." v in
  let v := bump (is_bias (detectCHoCH highs lows) BULLISH) $10
             " CHoCH reversal." v in
  let v := bump (is_bias (detectOrderBlock prices) BULLISH) $5
             " Bullish OB." v in
  let v := bump (is_bias (detectMitigationBlock prices) BULLISH) $5
             " Mitigation Block respected." v in
  let v := bump (is_bias (detectBreakerBlock prices) BULLISH) $5
             " Breaker Block confirmed." v in
  let v := bump (detectFairValueGap highs lows) $3 " FVG spotted." v in
  let v := bump (detectVolumeSurge (volumes stock)) $3
             " Strong volume." v in
  bump (is_bias (detectLiquiditySweep highs lows (current stock)) BULLISH)
       $4 " Bullish liquidity sweep." v.

(** The body of the SELL block. *)
Definition sell_block (stock : StockData) : Verdict :=
  let prices := prices stock in
  let highs := highs stock in
  let lows := lows stock in
  let v := mkVerdict SELL $70
             "Price below SMA20 & EMA50 with bearish momentum." in
  let v := bump (is_bias (detectBOS highs lows) BEARISH) $10
             " BOS confirmed." v in
  let v := bump (is_bias (detectCHoCH highs lows) BEARISH) $10
             " CHoCH reversal." v in
  let v := bump (is_bias (detectOrderBlock prices) BEARISH) $5
             " Bearish OB." v in
  let v := bump (is_bias (detectMitigationBlock prices) BEARISH) $5
             " Mitigation Block confirmed." v in
  let v := bump (is_bias (detectBreakerBlock prices) BEARISH) $5
             " Breaker Block formed." v in
  let v := bump (detectFairValueGap highs lows) $3 " FVG imbalance." v in
  let v := bump (detectVolumeSurge (volumes stock)) $3
             " Heavy selling volume." v in
  bump (is_bias (detectLiquiditySweep highs lows (current stock)) BEARISH)
       $4 " Bearish liquidity sweep." v.

(** The two [if] statements in sequence: the SELL block runs after the BUY
    block and overwrites its assignments when its own gate holds. *)
Definition combined_logic (stock : StockData) : Verdict :=
  let v := mkVerdict HOLD $50 "Neutral: waiting for confirmation." in
  let v := if buy_gate stock then buy_block stock else v in
  if sell_gate stock then sell_block stock else v.

Definition generateSMCSignal (stock : StockData) : SignalResult :=
  let current := current stock in
  let v := combined_logic stock in
  let signal := v_signal v in
  let confidence := F64.min2 (v_confidence v) $99 in
  let stoploss :=
    match signal with
    | BUY => current * F64.lit 985 1000
    | SELL => current * F64.lit 1015 1000
    | HOLD => current
    end in
  let targets :=
    match signal with
    | BUY => [current * F64.lit 101 100; current * F64.lit 102 100;
              current * F64.lit 103 100]
    | SELL => [current * F64.lit 99 100; current * F64.lit 98 100;
               current * F64.lit 97 100]
    | HOLD => [current]
    end in
  {| signal := signal;
     stoploss := stoploss;
     targets := targets;
     confidence := confidence;
     explanation := v_explanation v;
     hitStatus := ACTIVE;
     entryPrice := Some current;
     finalPrice := None;
     resolved := Some false;
     resolvedAt := None |}.

(** *** Live update tracking *)

(** [{ ...result, hitStatus, explanation, resolved: true,
       resolvedAt: new Date().toISOString(), finalPrice }].  The clock read
    is the argument [now]. *)
Definition resolve (result : SignalResult) (status : HitStatus)
    (text : string) (now : string) (price : float) : SignalResult :=
  {| signal := signal result;
     stoploss := stoploss result;
     targets := targets result;
     confidence := confidence result;
     explanation := text;
     hitStatus := status;
     entryPrice := entryPrice result;
     finalPrice := Some price;
     resolved := Some true;
     resolvedAt := Some now |}.

Definition updateHitStatus (now : string) (result : SignalResult)
    (currentPrice : float) : SignalResult :=
  if truthy (resolved result) then result
  else
    match signal result with
    | BUY =>
        if currentPrice <=? stoploss result
        then resolve result STOP "Stoploss hit." now currentPrice
        else if currentPrice >=? Arr64.get (targets result) 0
        then resolve result TARGET "Target 1 hit." now currentPrice
        else result
    | SELL =>
        if currentPrice >=? stoploss result
        then resolve result STOP "Stoploss hit." now currentPrice
        else if currentPrice <=? Arr64.get (targets result) 0
        then resolve result TARGET "Target 1 hit." now currentPrice
        else result
    | HOLD => result
    end.

(** *** End-of-day evaluation *)

Definition evaluateEndOfDayResult (now : string) (signal_ : SignalResult)
    (dayHigh dayLow closePrice : float) : SignalResult :=
  if truthy (resolved signal_) then signal_
  else
    let '(finalStatus, finalExplanation) :=
      match signal signal_ with
      | BUY =>
          if dayLow <=? stoploss signal_
          then (STOP, "Stoploss hit intraday."%string)
          else if dayHigh >=? Arr64.get (targets signal_) 0
          then (TARGET, "Target reached."%string)
          else (ACTIVE, explanation signal_)
      | SELL =>
          if dayHigh >=? stoploss signal_
          then (STOP, "Stoploss hit intraday."%string)
          else if dayLow <=? Arr64.get (targets signal_) 0
          then (TARGET, "Target reached."%string)
          else (ACTIVE, explanation signal_)
      | HOLD => (ACTIVE, explanation signal_)
      end in
    resolve signal_ finalStatus finalExplanation now closePrice.

(** *** [computeAccuracy] of [utils/tradeManager.ts] *)

(** The two counts are those of [TradeManager]; the quotient, the product
    and [Math.round] are the rounded ones. *)
Definition computeAccuracy (trades : list TradeManager.TradeResult) : float :=
  if (length (TradeManager.resolvedTrades trades) =? 0)%nat then $0
  else
    F64.round
      ((F64.of_nat (TradeManager.success trades)
        / F64.of_nat (length (TradeManager.resolvedTrades trades))) * $100).

End Binary64.

(** *** Inputs at the ends of the binary64 range *)


(** The largest finite double, [1.7976931348623157e308]. *)
Definition largest_double : float := PrimFloat.next_down PrimFloat.infinity.


(** A collection of resolved trades: so many targets, so many stops. *)
Definition resolved_trades (hits misses : nat)
  : list TradeManager.TradeResult :=
  repeat (sample_trade "T" TARGET (Some true)) hits
  ++ repeat (sample_trade "S" STOP (Some true)) misses.

(** *** Magnitudes without overflow *)


(* ================================================================== *)
(** ** Properties *)
(* ================================================================== *)

(** *** Facts about [number] *)

Section NumberFacts.

Lemma Qlt_bool_iff (a b : Q) : Num.Qlt_bool a b = true <-> (a < b)%Q.
Proof.
  unfold Num.Qlt_bool. rewrite negb_true_iff. split; intro H.
  - apply Qnot_le_lt. intro Hle. apply Qle_bool_iff in Hle. congruence.
  - destruct (Qle_bool b a) eqn:E; [|reflexivity].
    apply Qle_bool_iff in E. exfalso. exact (Qlt_not_le _ _ H E).
Qed.

Lemma Qlt_bool_false_iff (a b : Q) : Num.Qlt_bool a b = false <-> (b <= a)%Q.
Proof.
  unfold Num.Qlt_bool. rewrite negb_false_iff. apply Qle_bool_iff.
Qed.

(** [<] on numbers is asymmetric, [NaN] and the infinities included. *)
Lemma lt_asym (x y : number) : (x <? y) = true -> (y <? x) = false.
Proof.
  destruct x as [a| | |], y as [b| | |]; simpl; try congruence.
  intro H. apply Qlt_bool_iff in H. apply Qlt_bool_false_iff.
  apply Qlt_le_weak. exact H.
Qed.

Lemma add_of_Z (a b : Z) : $a + $b = $(a + b).
Proof.
  unfold Num.of_Z, Num.add, Qplus, inject_Z. simpl.
  rewrite !Z.mul_1_r. reflexivity.
Qed.

Lemma lt_of_Z (a b : Z) : ($a <? $b) = (a <? b)%Z.
Proof.
  unfold Num.of_Z, Num.lt, Num.Qlt_bool, Qle_bool, inject_Z. simpl.
  rewrite !Z.mul_1_r. rewrite Z.ltb_antisym. reflexivity.
Qed.

Lemma le_of_Z (a b : Z) : ($a <=? $b) = (a <=? b)%Z.
Proof.
  unfold Num.of_Z, Num.le, Qle_bool, inject_Z. simpl.
  rewrite !Z.mul_1_r. reflexivity.
Qed.

Lemma min2_of_Z (a b : Z) : Num.min2 $a $b = $(Z.min a b).
Proof.
  unfold Num.min2. change (Num.of_Z a) with (Fin (inject_Z a)) at 1.
  change (Num.of_Z b) with (Fin (inject_Z b)) at 1. cbv iota beta.
  change (Fin (inject_Z a)) with (Num.of_Z a).
  change (Fin (inject_Z b)) with (Num.of_Z b).
  rewrite lt_of_Z. destruct (Z.ltb_spec b a).
  - rewrite Z.min_r by lia. reflexivity.
  - rewrite Z.min_l by lia. reflexivity.
Qed.

End NumberFacts.

(** *** C1: the direction gates *)

Lemma bump_signal cond bonus clause v :
  v_signal (bump cond bonus clause v) = v_signal v.
Proof. destruct cond; reflexivity. Qed.

Lemma buy_block_signal stock : v_signal (buy_block stock) = BUY.
Proof. unfold buy_block. rewrite !bump_signal. reflexivity. Qed.

Lemma sell_block_signal stock : v_signal (sell_block stock) = SELL.
Proof. unfold sell_block. rewrite !bump_signal. reflexivity. Qed.

(** The two gates test opposite strict inequalities on the same values,
    so they never hold together. *)
Lemma gates_exclusive stock : buy_gate stock = true -> sell_gate stock = false.
Proof.
  unfold buy_gate, sell_gate. cbv zeta. intro H.
  apply andb_true_iff in H as [H _]. apply andb_true_iff in H as [H _].
  apply andb_true_iff in H as [H _]. unfold Num.gt in H.
  rewrite (lt_asym _ _ H). reflexivity.
Qed.

Lemma signal_cases stock :
  signal (generateSMCSignal stock)
  = if buy_gate stock then BUY else if sell_gate stock then SELL else HOLD.
Proof.
  unfold generateSMCSignal, combined_logic. cbv zeta. simpl signal.
  destruct (buy_gate stock) eqn:B.
  - rewrite (gates_exclusive _ B). apply buy_block_signal.
  - destruct (sell_gate stock); [apply sell_block_signal | reflexivity].
Qed.

(** C1. [generateSMCSignal] answers BUY exactly when
    [current > SMA(closes, 20)], [current > EMA(closes, 50)],
    [RSI(closes, 14) < 70] and the percent change from [previousClose] is
    positive; SELL exactly when the mirrored conditions hold (below both
    averages, [RSI > 30], negative change); and HOLD in every other case. *)
Theorem generateSMCSignal_direction (stock : Api.StockData) :
  let current := Api.current stock in
  let closes := Api.prices stock in
  let buy :=
    (current >? calculateSMA closes 20) = true
    /\ (current >? calculateEMA closes 50) = true
    /\ (calculateRSI closes 14 <? $70) = true
    /\ (change stock >? $0) = true in
  let sell :=
    (current <? calculateSMA closes 20) = true
    /\ (current <? calculateEMA closes 50) = true
    /\ (calculateRSI closes 14 >? $30) = true
    /\ (change stock <? $0) = true in
  (signal (generateSMCSignal stock) = BUY <-> buy)
  /\ (signal (generateSMCSignal stock) = SELL <-> sell)
  /\ (signal (generateSMCSignal stock) = HOLD <-> ~ buy /\ ~ sell).
Proof.
  cbv zeta.
  assert (HB : buy_gate stock = true <->
    (Api.current stock >? calculateSMA (Api.prices stock) 20) = true
    /\ (Api.current stock >? calculateEMA (Api.prices stock) 50) = true
    /\ (calculateRSI (Api.prices stock) 14 <? $70) = true
    /\ (change stock >? $0) = true).
  { unfold buy_gate. cbv zeta. rewrite !andb_true_iff. tauto. }
  assert (HS : sell_gate stock = true <->
    (Api.current stock <? calculateSMA (Api.prices stock) 20) = true
    /\ (Api.current stock <? calculateEMA (Api.prices stock) 50) = true
    /\ (calculateRSI (Api.prices stock) 14 >? $30) = true
    /\ (change stock <? $0) = true).
  { unfold sell_gate. cbv zeta. rewrite !andb_true_iff. tauto. }
  rewrite <- HB, <- HS, signal_cases.
  pose proof (gates_exclusive stock) as X.
  destruct (buy_gate stock), (sell_gate stock);
    repeat split; intros; try congruence; try tauto;
    try (specialize (X eq_refl); congruence).
Qed.

(** *** C2: the confidence score *)

Lemma bonus_bounds aligned weight :
  (0 <= weight -> 0 <= bonus aligned weight <= weight)%Z.
Proof. destruct aligned; simpl; lia. Qed.

Lemma aligned_bonuses_bounds stock dir :
  (0 <= aligned_bonuses stock dir <= 45)%Z.
Proof.
  unfold aligned_bonuses. cbv zeta.
  repeat match goal with
         | |- context [bonus ?c ?w] =>
             let H := fresh "Hb" in
             assert (H := @bonus_bounds c w ltac:(lia));
             generalize dependent (bonus c w); intros
         end.
  lia.
Qed.

Lemma bump_confidence cond weight clause v :
  v_confidence (bump cond $weight clause v)
  = v_confidence v + $(bonus cond weight).
Proof.
  destruct cond; simpl; [reflexivity|].
  destruct (v_confidence v) as [q| | |]; simpl; try reflexivity.
  f_equal. unfold Qplus. simpl. rewrite Z.mul_1_r, Z.add_0_r, Pos.mul_1_r.
  destruct q; reflexivity.
Qed.

Lemma buy_block_confidence stock :
  v_confidence (buy_block stock) = $(70 + aligned_bonuses stock BULLISH).
Proof.
  unfold buy_block, aligned_bonuses. cbv zeta.
  rewrite !bump_confidence. simpl v_confidence.
  rewrite !add_of_Z. f_equal. lia.
Qed.

Lemma sell_block_confidence stock :
  v_confidence (sell_block stock) = $(70 + aligned_bonuses stock BEARISH).
Proof.
  unfold sell_block, aligned_bonuses. cbv zeta.
  rewrite !bump_confidence. simpl v_confidence.
  rewrite !add_of_Z. f_equal. lia.
Qed.

Lemma confidence_cases stock :
  confidence (generateSMCSignal stock)
  = if buy_gate stock
    then $(Z.min (70 + aligned_bonuses stock BULLISH) 99)
    else if sell_gate stock
         then $(Z.min (70 + aligned_bonuses stock BEARISH) 99)
         else $50.
Proof.
  unfold generateSMCSignal, combined_logic. cbv zeta. simpl confidence.
  destruct (buy_gate stock) eqn:B.
  - rewrite (gates_exclusive _ B), buy_block_confidence. apply min2_of_Z.
  - destruct (sell_gate stock).
    + rewrite sell_block_confidence. apply min2_of_Z.
    + reflexivity.
Qed.

(** C2. The confidence of every signal [generateSMCSignal] produces is an
    integer between 50 and 99: exactly 50 on HOLD, and on BUY or SELL
    70 plus the bonuses of the aligned detectors, capped at 99. *)
Theorem generateSMCSignal_confidence (stock : Api.StockData) :
  let r := generateSMCSignal stock in
  (exists z : Z, confidence r = $z /\ (50 <= z <= 99)%Z)
  /\ (signal r = HOLD -> confidence r = $50)
  /\ (signal r = BUY ->
      confidence r = $(Z.min (70 + aligned_bonuses stock BULLISH) 99))
  /\ (signal r = SELL ->
      confidence r = $(Z.min (70 + aligned_bonuses stock BEARISH) 99)).
Proof.
  cbv zeta. rewrite signal_cases, confidence_cases.
  pose proof (aligned_bonuses_bounds stock BULLISH).
  pose proof (aligned_bonuses_bounds stock BEARISH).
  destruct (buy_gate stock), (sell_gate stock);
    (split; [eexists; split; [reflexivity | lia] | ]);
    repeat split; intros; congruence.
Qed.

(** *** C3: stoploss and targets *)

Lemma stoploss_cases stock :
  stoploss (generateSMCSignal stock)
  = match signal (generateSMCSignal stock) with
    | BUY => Api.current stock * lit 985 1000
    | SELL => Api.current stock * lit 1015 1000
    | HOLD => Api.current stock
    end.
Proof. reflexivity. Qed.

Lemma targets_cases stock :
  targets (generateSMCSignal stock)
  = match signal (generateSMCSignal stock) with
    | BUY => [Api.current stock * lit 101 100;
              Api.current stock * lit 102 100;
              Api.current stock * lit 103 100]
    | SELL => [Api.current stock * lit 99 100;
               Api.current stock * lit 98 100;
               Api.current stock * lit 97 100]
    | HOLD => [Api.current stock]
    end.
Proof. reflexivity. Qed.






(** *** C4 to C7: the trade lifecycle tracker *)

(** C4. On an unresolved BUY signal, a day with [dayLow <= stoploss] and
    [dayHigh >= targets[0]] at once is resolved as a stop, not a target; on
    an unresolved SELL signal likewise when [dayHigh >= stoploss] and
    [dayLow <= targets[0]].  Whenever [evaluateEndOfDayResult] resolves a
    signal, [finalPrice] is the session close. *)
Theorem evaluateEndOfDayResult_stop_first
    (now : string) (s : SignalResult) (dayHigh dayLow closePrice : number) :
  truthy (resolved s) = false ->
  let r := evaluateEndOfDayResult now s dayHigh dayLow closePrice in
  (signal s = BUY ->
     (dayLow <=? stoploss s) = true ->
     (dayHigh >=? Arr.get (targets s) 0) = true ->
     hitStatus r = STOP)
  /\ (signal s = SELL ->
     (dayHigh >=? stoploss s) = true ->
     (dayLow <=? Arr.get (targets s) 0) = true ->
     hitStatus r = STOP)
  /\ resolved r = Some true
  /\ finalPrice r = Some closePrice.
Proof.
  intros Hun. cbv zeta. unfold evaluateEndOfDayResult. rewrite Hun.
  split; [|split; [|split]].
  - intros Hd Hstop _. rewrite Hd, Hstop. reflexivity.
  - intros Hd Hstop _. rewrite Hd, Hstop. reflexivity.
  - destruct (signal s);
      repeat match goal with |- context [if ?b then _ else _] =>
               destruct b end; reflexivity.
  - destruct (signal s);
      repeat match goal with |- context [if ?b then _ else _] =>
               destruct b end; reflexivity.
Qed.

Lemma updateHitStatus_resolved now s price :
  resolved s = Some true -> updateHitStatus now s price = s.
Proof. intro H. unfold updateHitStatus. rewrite H. reflexivity. Qed.

Lemma evaluateEndOfDayResult_resolved now s dayHigh dayLow closePrice :
  resolved s = Some true ->
  evaluateEndOfDayResult now s dayHigh dayLow closePrice = s.
Proof. intro H. unfold evaluateEndOfDayResult. rewrite H. reflexivity. Qed.

(** What an unresolved signal becomes at the end of a day. *)
Lemma evaluateEndOfDayResult_unresolved now s dayHigh dayLow closePrice :
  truthy (resolved s) = false ->
  exists status text,
    evaluateEndOfDayResult now s dayHigh dayLow closePrice
    = resolve s status text now closePrice
    /\ (breaches s dayHigh dayLow = false ->
        status = ACTIVE /\ text = explanation s).
Proof.
  intro H. unfold evaluateEndOfDayResult, breaches. rewrite H.
  destruct (signal s).
  - destruct (dayLow <=? stoploss s);
      [|destruct (dayHigh >=? Arr.get (targets s) 0)];
      do 2 eexists; (split; [reflexivity|]); simpl; intro; try discriminate;
      split; reflexivity.
  - destruct (dayHigh >=? stoploss s);
      [|destruct (dayLow <=? Arr.get (targets s) 0)];
      do 2 eexists; (split; [reflexivity|]); simpl; intro; try discriminate;
      split; reflexivity.
  - do 2 eexists. split; [reflexivity|]. intro. split; reflexivity.
Qed.

(** C5. A resolved signal is terminal: [updateHitStatus] at any price and
    [evaluateEndOfDayResult] on any day return the very record they were
    given, field for field. *)
Theorem resolved_is_terminal
    (now : string) (s : SignalResult)
    (price dayHigh dayLow closePrice : number) :
  resolved s = Some true ->
  updateHitStatus now s price = s
  /\ evaluateEndOfDayResult now s dayHigh dayLow closePrice = s.
Proof.
  intro H. split.
  - apply updateHitStatus_resolved, H.
  - apply evaluateEndOfDayResult_resolved, H.
Qed.

(** A second call of either tracker function after an end-of-day
    evaluation changes nothing. *)
Lemma tracker_idempotent now now' s price dayHigh dayLow closePrice :
  let r := evaluateEndOfDayResult now s dayHigh dayLow closePrice in
  updateHitStatus now' r price = r
  /\ evaluateEndOfDayResult now' r dayHigh dayLow closePrice = r.
Proof.
  cbv zeta.
  assert (R : resolved (evaluateEndOfDayResult now s dayHigh dayLow closePrice)
              = Some true).
  { destruct (truthy (resolved s)) eqn:E.
    - unfold evaluateEndOfDayResult. rewrite E.
      destruct (resolved s) as [[|]|]; simpl in E; congruence.
    - destruct (evaluateEndOfDayResult_unresolved now s dayHigh dayLow
                  closePrice E) as (st & tx & -> & _). reflexivity. }
  split.
  - apply updateHitStatus_resolved, R.
  - apply evaluateEndOfDayResult_resolved, R.
Qed.

(** C6. An end-of-day evaluation of an unresolved signal on a day that
    breaches neither its stoploss nor its first target (any day, for a
    HOLD signal) still closes the record: [resolved] is true, [resolvedAt]
    is set and [finalPrice] is the close, while [hitStatus] is ACTIVE.
    Such a trade is kept by the filter that forms the denominator of
    [computeAccuracy] and is not counted among its successes. *)
Theorem evaluateEndOfDayResult_closes_without_hit
    (now : string) (s : SignalResult) (dayHigh dayLow closePrice : number)
    (t : TradeManager.TradeResult) (trades : list TradeManager.TradeResult) :
  truthy (resolved s) = false ->
  breaches s dayHigh dayLow = false ->
  truthy (TradeManager.resolved t) = false ->
  breaches (TradeManager.as_signal t) dayHigh dayLow = false ->
  let r := evaluateEndOfDayResult now s dayHigh dayLow closePrice in
  let t' := TradeManager.endOfDayEvaluate now t dayHigh dayLow closePrice in
  (resolved r = Some true /\ resolvedAt r = Some now
   /\ finalPrice r = Some closePrice /\ hitStatus r = ACTIVE)
  /\ (TradeManager.resolved t' = Some true
      /\ TradeManager.hitStatus t' = ACTIVE
      /\ TradeManager.finalPrice t' = Some closePrice)
  /\ TradeManager.resolvedTrades (t' :: trades)
     = t' :: TradeManager.resolvedTrades trades
  /\ TradeManager.success (t' :: trades) = TradeManager.success trades.
Proof.
  intros Hs Hb Ht Htb. cbv zeta.
  destruct (evaluateEndOfDayResult_unresolved now s dayHigh dayLow
              closePrice Hs) as (st & tx & -> & Hst).
  destruct (Hst Hb) as [-> ->].
  assert (Hu : truthy (resolved (TradeManager.as_signal t)) = false).
  { simpl. destruct (TradeManager.resolved t) as [[|]|];
      simpl in Ht |- *; congruence. }
  unfold TradeManager.endOfDayEvaluate.
  destruct (evaluateEndOfDayResult_unresolved now _ dayHigh dayLow
              closePrice Hu) as (st' & tx' & -> & Hst').
  destruct (Hst' Htb) as [-> _].
  repeat split.
Qed.

(** C7. [updateHitStatus] leaves the direction, stoploss, targets,
    confidence and entry price of a signal as they were, whatever the
    price; and a tick that resolves nothing (no breach of the stoploss or
    of the first target on an unresolved BUY or SELL, any tick on a HOLD
    signal, any tick on a resolved signal) returns the record it was
    given. *)
Theorem updateHitStatus_frame
    (now : string) (s : SignalResult) (price : number) :
  let r := updateHitStatus now s price in
  (signal r = signal s /\ stoploss r = stoploss s /\ targets r = targets s
   /\ confidence r = confidence s /\ entryPrice r = entryPrice s)
  /\ (breaches s price price = false -> r = s)
  /\ (signal s = HOLD -> r = s)
  /\ (truthy (resolved s) = true -> r = s).
Proof.
  cbv zeta. unfold updateHitStatus, breaches.
  destruct (truthy (resolved s));
    [split; [repeat split | split; [|split]; intros; reflexivity]|].
  destruct (signal s) eqn:D.
  - destruct (price <=? stoploss s);
      [|destruct (price >=? Arr.get (targets s) 0)];
      (split; [simpl; rewrite ?D; repeat split|]);
      (split; [|split]); simpl; intros; congruence.
  - destruct (price >=? stoploss s);
      [|destruct (price <=? Arr.get (targets s) 0)];
      (split; [simpl; rewrite ?D; repeat split|]);
      (split; [|split]); simpl; intros; congruence.
  - split; [repeat split; assumption | split; [|split]; intros; reflexivity].
Qed.

(** *** C8: the accuracy aggregator *)

Lemma div_fin (a b : Q) : ~ (b == 0)%Q -> Fin a / Fin b = Fin (a / b)%Q.
Proof.
  intro H. unfold Num.div. destruct (Qeq_bool b 0) eqn:E; [|reflexivity].
  apply Qeq_bool_iff in E. contradiction.
Qed.

Lemma inject_nat_nonzero (n : nat) :
  n <> 0%nat -> ~ (inject_Z (Z.of_nat n) == 0)%Q.
Proof.
  intros Hn H. unfold Qeq in H. simpl in H. lia.
Qed.

Lemma round_ratio (s n : nat) :
  n <> 0%nat ->
  Num.round ((Num.of_nat s / Num.of_nat n) * $100)
  = Num.round ($100 * Num.of_nat s / Num.of_nat n).
Proof.
  intro Hn. pose proof (inject_nat_nonzero Hn) as Hq.
  unfold Num.of_nat, Num.of_Z. rewrite div_fin by exact Hq.
  simpl Num.mul. rewrite div_fin by exact Hq.
  unfold Num.round. apply f_equal. apply Qfloor_comp.
  field. exact Hq.
Qed.

Lemma success_count trades :
  TradeManager.success trades
  = countWhere (fun t => is_resolved t && is_target t)%bool trades.
Proof.
  unfold TradeManager.success, TradeManager.resolvedTrades, countWhere.
  f_equal. induction trades as [|t ts IH]; [reflexivity|].
  simpl. unfold is_resolved at 1.
  destruct (truthy (TradeManager.resolved t)); simpl.
  - unfold is_target at 1.
    destruct (HitStatus_eqb (TradeManager.hitStatus t) TARGET);
      rewrite IH; reflexivity.
  - exact IH.
Qed.

Lemma computeAccuracy_unfold trades :
  TradeManager.computeAccuracy trades
  = accuracy_formula
      (countWhere (fun t => is_resolved t && is_target t)%bool trades)
      (countWhere is_resolved trades).
Proof.
  unfold TradeManager.computeAccuracy, accuracy_formula.
  rewrite success_count.
  change (length (TradeManager.resolvedTrades trades))
    with (countWhere is_resolved trades).
  destruct (Nat.eqb_spec (countWhere is_resolved trades) 0);
    [reflexivity|].
  apply round_ratio. assumption.
Qed.

(** C8, as stated, fails on a collection that holds an unresolved trade
    whose status is TARGET: the code counts no success among the resolved
    trades and answers 0, the formula over the full collection gives 100. *)
Lemma computeAccuracy_not_over_collection :
  TradeManager.computeAccuracy unresolved_target_trades = $0
  /\ accuracy_over_collection unresolved_target_trades = $100
  /\ TradeManager.computeAccuracy unresolved_target_trades
     <> accuracy_over_collection unresolved_target_trades.
Proof.
  split; [vm_compute; reflexivity|].
  split; [vm_compute; reflexivity|].
  vm_compute. discriminate.
Qed.

(** The accuracy as the code evaluates it, quotient first, from the two
    counts. *)
Lemma computeAccuracy_counts trades :
  TradeManager.computeAccuracy trades
  = if (countWhere is_resolved trades =? 0)%nat then $0
    else Num.round
           ((Num.of_nat
               (countWhere (fun t => is_resolved t && is_target t)%bool
                  trades)
             / Num.of_nat (countWhere is_resolved trades)) * $100).
Proof.
  unfold TradeManager.computeAccuracy. rewrite success_count. reflexivity.
Qed.

Lemma computeAccuracy64_counts trades :
  Binary64.computeAccuracy trades
  = if (countWhere is_resolved trades =? 0)%nat then F64.of_Z 0
    else F64.round
           (F64.mul
              (F64.div
                 (F64.of_nat
                    (countWhere (fun t => is_resolved t && is_target t)%bool
                       trades))
                 (F64.of_nat (countWhere is_resolved trades)))
              (F64.of_Z 100)).
Proof.
  unfold Binary64.computeAccuracy. rewrite success_count. reflexivity.
Qed.

(** The quotient is rounded before it is multiplied: 23 targets among 40
    resolved trades give 57 and 29 among 200 give 14, where 100 * 23 / 40
    and 100 * 29 / 200 are the ties 57.5 and 14.5. *)
Lemma computeAccuracy_rounds_the_quotient :
  Binary64.computeAccuracy (resolved_trades 23 17) = F64.of_Z 57
  /\ Binary64.computeAccuracy (resolved_trades 29 171) = F64.of_Z 14.
Proof. split; vm_compute; reflexivity. Qed.

(** C8, amended.  [computeAccuracy] is [Math.round((hits / resolved) *
    100)], the quotient taken first and each operation as the program
    evaluates it, where [resolved] counts the trades with [resolved ==
    true] and [hits] counts, among those, the trades whose status is
    TARGET; it is 0 when no trade is resolved; an unresolved trade,
    whatever its status, changes neither count; and three resolved trades
    with statuses TARGET, TARGET, STOP next to one unresolved ACTIVE trade
    give 67.  All of it holds of the exact and of the binary64 evaluation
    alike. *)
Theorem computeAccuracy_quotient_first
    (trades : list TradeManager.TradeResult) :
  let hits := countWhere (fun t => is_resolved t && is_target t)%bool trades in
  let res := countWhere is_resolved trades in
  (TradeManager.computeAccuracy trades
   = (if (res =? 0)%nat then $0
      else Num.round ((Num.of_nat hits / Num.of_nat res) * $100))
   /\ Binary64.computeAccuracy trades
      = (if (res =? 0)%nat then F64.of_Z 0
         else F64.round
                (F64.mul (F64.div (F64.of_nat hits) (F64.of_nat res))
                   (F64.of_Z 100))))
  /\ (res = 0%nat ->
      TradeManager.computeAccuracy trades = $0
      /\ Binary64.computeAccuracy trades = F64.of_Z 0)
  /\ (forall t, is_resolved t = false ->
      TradeManager.computeAccuracy (t :: trades)
      = TradeManager.computeAccuracy trades
      /\ Binary64.computeAccuracy (t :: trades)
         = Binary64.computeAccuracy trades)
  /\ (forall a b c d,
      is_resolved a = true -> TradeManager.hitStatus a = TARGET ->
      is_resolved b = true -> TradeManager.hitStatus b = TARGET ->
      is_resolved c = true -> TradeManager.hitStatus c = STOP ->
      is_resolved d = false -> TradeManager.hitStatus d = ACTIVE ->
      TradeManager.computeAccuracy [a; b; c; d] = $67
      /\ Binary64.computeAccuracy [a; b; c; d] = F64.of_Z 67).
Proof.
  cbv zeta.
  split; [split; [apply computeAccuracy_counts|apply computeAccuracy64_counts]|].
  split.
  { intro H. rewrite computeAccuracy_counts, computeAccuracy64_counts, H.
    split; reflexivity. }
  split.
  - intros t Ht. rewrite !computeAccuracy_counts, !computeAccuracy64_counts.
    unfold countWhere. simpl. rewrite Ht. split; reflexivity.
  - intros a b c d Ha Sa Hb Sb Hc Sc Hd Sd.
    rewrite computeAccuracy_counts, computeAccuracy64_counts.
    unfold countWhere. simpl.
    unfold is_target. rewrite Ha, Hb, Hc, Hd, Sa, Sb, Sc. simpl.
    split; vm_compute; reflexivity.
Qed.

(** *** C9: the volume surge detector *)

Lemma clamp_neg (len k : nat) :
  Arr.clamp len (- Z.of_nat (S k)) = (len - S k)%nat.
Proof.
  unfold Arr.clamp. destruct (Z.ltb_spec (- Z.of_nat (S k)) 0); lia.
Qed.

(** C9, as stated, fails on ten volumes of 100 followed by 155: the latest
    volume exceeds 1.5 times the mean of the ten volumes before it
    (155 > 150), yet the detector, whose mean runs over the last ten
    volumes with the latest among them (158.25 = 1.5 * 105.5), answers
    [false]. *)
Lemma detectVolumeSurge_not_preceding :
  (10 <= length surge_sample)%nat
  /\ ((15 # 10) * (Qsum (preceding 10 surge_sample) / 10)
      < last surge_sample 0)%Q
  /\ detectVolumeSurge (map Fin surge_sample) = false.
Proof.
  split; [simpl; lia|].
  split; vm_compute; reflexivity.
Qed.

(** The window [slice(-n)] of an array that ends in [n] elements is those
    elements, and the last element of the array is theirs. *)
Lemma slice_from_window (A : Type) (front window : list A) (n : nat) :
  length window = S n ->
  Arr.slice_from (- Z.of_nat (S n)) (front ++ window) = window.
Proof.
  intro H. unfold Arr.slice_from. rewrite clamp_neg, length_app, H.
  replace (length front + S n - S n)%nat with (length front + 0)%nat by lia.
  rewrite skipn_app, Nat.add_0_r, skipn_all.
  replace (length front - length front)%nat with 0%nat by lia.
  reflexivity.
Qed.

Lemma nth_end_window (A : Type) (front window : list A) (d : A) :
  window <> [] ->
  nth (length (front ++ window) - 1) (front ++ window) d = last window d.
Proof.
  intro N. destruct (exists_last N) as (init & x & ->).
  rewrite last_last, app_assoc, length_app. simpl length.
  rewrite app_nth2 by lia.
  replace (length (front ++ init) + 1 - 1 - length (front ++ init))%nat
    with 0%nat by lia.
  reflexivity.
Qed.

Lemma le_not_gt (x y : number) : (x <=? y) = true -> (x >? y) = false.
Proof.
  unfold Num.gt. destruct x as [a| | |], y as [b| | |]; cbn [Num.le Num.lt];
    try discriminate; try reflexivity.
  intro H. apply Qlt_bool_false_iff. apply Qle_bool_iff in H. exact H.
Qed.

(** Comparisons of doubles, from their specification: swapping the
    arguments of a comparison reverses its outcome. *)
Lemma SFcompare_swap (x y : SpecFloat.spec_float) :
  SpecFloat.SFcompare y x
  = match SpecFloat.SFcompare x y with
    | Some c => Some (CompOpp c)
    | None => None
    end.
Proof.
  destruct x as [sx|sx| |sx mx ex], y as [sy|sy| |sy my ey]; simpl;
    try reflexivity;
    try (destruct sx; reflexivity); try (destruct sy; reflexivity);
    try (destruct sx, sy; reflexivity).
  destruct sx, sy; try reflexivity;
    rewrite (Z.compare_antisym ex ey); destruct (ex ?= ey)%Z; simpl;
    try reflexivity;
    change (PosDef.Pos.compare_cont Eq my mx) with (my ?= mx)%positive;
    change (PosDef.Pos.compare_cont Eq mx my) with (mx ?= my)%positive;
    rewrite (Pos.compare_antisym mx my);
    destruct (mx ?= my)%positive; reflexivity.
Qed.

Lemma le64_not_gt (x y : float) : F64.le x y = true -> F64.gt x y = false.
Proof.
  unfold F64.le, F64.gt.
  rewrite FloatAxioms.leb_spec, FloatAxioms.ltb_spec.
  unfold SpecFloat.SFleb, SpecFloat.SFltb.
  rewrite (SFcompare_swap (FloatOps.Prim2SF x) (FloatOps.Prim2SF y)).
  destruct (SpecFloat.SFcompare (FloatOps.Prim2SF x) (FloatOps.Prim2SF y))
    as [[| |]|]; simpl; congruence.
Qed.

Lemma detectVolumeSurge_on_window (front window : list number) :
  length window = 10%nat ->
  detectVolumeSurge (front ++ window)
  = (last window NaN >? Arr.sum window / $10 * lit 15 10).
Proof.
  intro H.
  assert (L : length (front ++ window) = (length front + 10)%nat)
    by (rewrite length_app, H; reflexivity).
  unfold detectVolumeSurge, Arr.from_end, Arr.get.
  destruct (Nat.ltb_spec (length (front ++ window)) 10); [lia|].
  destruct (Nat.ltb_spec (length (front ++ window)) 1); [lia|].
  change (-10)%Z with (- Z.of_nat 10)%Z.
  rewrite slice_from_window by exact H.
  rewrite nth_end_window by (destruct window; [discriminate H | discriminate]).
  reflexivity.
Qed.

Lemma detectVolumeSurge64_on_window (front window : list float) :
  length window = 10%nat ->
  Binary64.detectVolumeSurge (front ++ window)
  = F64.gt (last window F64.NaN)
      (F64.mul (F64.div (Arr64.sum window) (F64.of_Z 10)) (F64.lit 15 10)).
Proof.
  intro H.
  assert (L : length (front ++ window) = (length front + 10)%nat)
    by (rewrite length_app, H; reflexivity).
  unfold Binary64.detectVolumeSurge, Arr64.from_end, Arr64.get.
  destruct (Nat.ltb_spec (length (front ++ window)) 10); [lia|].
  destruct (Nat.ltb_spec (length (front ++ window)) 1); [lia|].
  change (-10)%Z with (- Z.of_nat 10)%Z.
  rewrite slice_from_window by exact H.
  rewrite nth_end_window by (destruct window; [discriminate H | discriminate]).
  reflexivity.
Qed.

(** C9, amended.  On a volume sequence of at least 10 samples,
    [detectVolumeSurge] looks at the last 10 volumes only, the latest one
    among them: it is true exactly when the latest volume is strictly
    greater than [avgVol * 1.5], where [avgVol] is the sum of those 10
    volumes divided by 10, each operation as the program evaluates it; it
    is false when the latest volume equals that threshold or lies below
    it; and it is false on every sequence shorter than 10.  All of it
    holds of the exact and of the binary64 evaluation alike. *)
Theorem detectVolumeSurge_window :
  (forall front window : list number,
      length window = 10%nat ->
      let threshold := Arr.sum window / $10 * lit 15 10 in
      detectVolumeSurge (front ++ window) = (last window NaN >? threshold)
      /\ ((last window NaN <=? threshold) = true ->
          detectVolumeSurge (front ++ window) = false))
  /\ (forall front window : list float,
      length window = 10%nat ->
      let threshold :=
        F64.mul (F64.div (Arr64.sum window) (F64.of_Z 10)) (F64.lit 15 10) in
      Binary64.detectVolumeSurge (front ++ window)
      = F64.gt (last window F64.NaN) threshold
      /\ (F64.le (last window F64.NaN) threshold = true ->
          Binary64.detectVolumeSurge (front ++ window) = false))
  /\ (forall volumes : list number,
      (length volumes < 10)%nat -> detectVolumeSurge volumes = false)
  /\ (forall volumes : list float,
      (length volumes < 10)%nat -> Binary64.detectVolumeSurge volumes = false).
Proof.
  split; [|split; [|split]].
  - intros front window H. cbv zeta.
    rewrite (detectVolumeSurge_on_window front window H).
    split; [reflexivity | apply le_not_gt].
  - intros front window H. cbv zeta.
    rewrite (detectVolumeSurge64_on_window front window H).
    split; [reflexivity | apply le64_not_gt].
  - intros volumes H. unfold detectVolumeSurge.
    destruct (Nat.ltb_spec (length volumes) 10); [reflexivity | lia].
  - intros volumes H. unfold Binary64.detectVolumeSurge.
    destruct (Nat.ltb_spec (length volumes) 10); [reflexivity | lia].
Qed.

(** *** C10: degenerate inputs of the indicators *)

Lemma add_zero_r (x : number) : x + $0 = x.
Proof.
  destruct x as [q| | |]; try reflexivity.
  simpl. f_equal. unfold Qplus. simpl.
  rewrite Z.mul_1_r, Z.add_0_r, Pos.mul_1_r. destruct q; reflexivity.
Qed.

Lemma rsi_losses data idxs gains losses :
  snd (fold_left (rsi_step data) idxs (gains, losses))
  = fold_left Num.add
      (map loss
         (map (fun i => Arr.get data i - Arr.get data (i - 1)) idxs))
      losses.
Proof.
  revert gains losses. induction idxs as [|i idxs IH]; intros gains losses;
    [reflexivity|].
  cbn [fold_left map]. unfold rsi_step at 2, loss at 2.
  destruct (Arr.get data i - Arr.get data (i - 1) >? $0); rewrite IH.
  - rewrite add_zero_r. reflexivity.
  - reflexivity.
Qed.

(** The running [losses / period] of the code is the average loss. *)
Lemma avgLoss_average_loss data period :
  avgLoss data period = average_loss data period.
Proof.
  unfold avgLoss, average_loss, rsi_sums, last_deltas, Arr.sum.
  rewrite rsi_losses. reflexivity.
Qed.

(** C10. With fewer than [period] samples, [calculateSMA] of a non-empty
    series is its last element; with fewer than [period + 1] samples,
    [calculateRSI] is exactly 50; and with at least [period + 1] samples
    and an average loss of 0 over the last [period] deltas,
    [calculateRSI] is 100.  The functions are total: each of these inputs
    has a value. *)
Theorem indicators_degenerate_inputs :
  (forall (init : list number) (x : number) (period : nat),
      (length (init ++ [x]) < period)%nat ->
      calculateSMA (init ++ [x]) period = x)
  /\ (forall (data : list number) (period : nat),
      (length data < period + 1)%nat -> calculateRSI data period = $50)
  /\ (forall (data : list number) (period : nat),
      (period + 1 <= length data)%nat ->
      (average_loss data period =? $0) = true ->
      calculateRSI data period = $100).
Proof.
  split; [|split].
  - intros init x period H. unfold calculateSMA.
    destruct (Nat.ltb_spec (length (init ++ [x])) period); [|lia].
    apply last_last.
  - intros data period H. unfold calculateRSI.
    destruct (Nat.ltb_spec (length data) (period + 1)); [reflexivity | lia].
  - intros data period H E. unfold calculateRSI.
    destruct (Nat.ltb_spec (length data) (period + 1)); [lia|].
    rewrite avgLoss_average_loss, E. reflexivity.
Qed.

(** *** The theorems at the sample inputs *)

Lemma generateSMCSignal_direction_sample :
  signal (generateSMCSignal buy_sample) = BUY
  /\ signal (generateSMCSignal sell_sample) = SELL
  /\ signal (generateSMCSignal quote_only_sample) = BUY.
Proof. repeat split; vm_compute; reflexivity. Qed.

Lemma generateSMCSignal_confidence_witness :
  signal (generateSMCSignal buy_sample) = BUY
  /\ confidence (generateSMCSignal buy_sample) = $99.
Proof.
  assert (B : signal (generateSMCSignal buy_sample) = BUY)
    by (vm_compute; reflexivity).
  split; [exact B|].
  destruct (generateSMCSignal_confidence buy_sample) as (_ & _ & HB & _).
  rewrite (HB B). vm_compute. reflexivity.
Defined.

Lemma evaluateEndOfDayResult_stop_first_witness :
  truthy (resolved (sample_signal BUY ACTIVE (Some false))) = false
  /\ hitStatus (evaluateEndOfDayResult midnight
                  (sample_signal BUY ACTIVE (Some false)) $106 $94 $100)
     = STOP
  /\ finalPrice (evaluateEndOfDayResult midnight
                   (sample_signal BUY ACTIVE (Some false)) $106 $94 $100)
     = Some $100.
Proof.
  split; [reflexivity|].
  destruct (@evaluateEndOfDayResult_stop_first midnight
              (sample_signal BUY ACTIVE (Some false)) $106 $94 $100 eq_refl)
    as (HB & _ & _ & HF).
  split; [|exact HF].
  apply HB; reflexivity.
Defined.

Lemma resolved_is_terminal_witness :
  resolved (sample_signal BUY TARGET (Some true)) = Some true
  /\ updateHitStatus midnight (sample_signal BUY TARGET (Some true)) $94
     = sample_signal BUY TARGET (Some true)
  /\ evaluateEndOfDayResult midnight (sample_signal BUY TARGET (Some true))
       $106 $94 $100
     = sample_signal BUY TARGET (Some true).
Proof.
  split; [reflexivity|].
  exact (@resolved_is_terminal midnight (sample_signal BUY TARGET (Some true))
           $94 $106 $94 $100 eq_refl).
Defined.

Lemma evaluateEndOfDayResult_closes_without_hit_witness :
  truthy (resolved (sample_signal HOLD ACTIVE (Some false))) = false
  /\ breaches (sample_signal HOLD ACTIVE (Some false)) $100 $99 = false
  /\ truthy (TradeManager.resolved (sample_trade "A" ACTIVE None)) = false
  /\ breaches (TradeManager.as_signal (sample_trade "A" ACTIVE None))
       $100 $99 = false
  /\ hitStatus (evaluateEndOfDayResult midnight
                  (sample_signal HOLD ACTIVE (Some false)) $100 $99 $100)
     = ACTIVE
  /\ TradeManager.computeAccuracy
       [TradeManager.endOfDayEvaluate midnight (sample_trade "A" ACTIVE None)
          $100 $99 $100;
        sample_trade "B" TARGET (Some true)]
     = $50.
Proof.
  split; [reflexivity|]. split; [reflexivity|].
  split; [reflexivity|]. split; [reflexivity|].
  destruct (@evaluateEndOfDayResult_closes_without_hit midnight
              (sample_signal HOLD ACTIVE (Some false)) $100 $99 $100
              (sample_trade "A" ACTIVE None)
              [sample_trade "B" TARGET (Some true)]
              eq_refl eq_refl eq_refl eq_refl)
    as ((_ & _ & _ & HA) & _ & HR & HS).
  split; [exact HA|].
  unfold TradeManager.computeAccuracy. rewrite HS, HR.
  vm_compute. reflexivity.
Defined.

Lemma updateHitStatus_frame_witness :
  updateHitStatus midnight (sample_signal HOLD ACTIVE (Some false)) $94
  = sample_signal HOLD ACTIVE (Some false)
  /\ updateHitStatus midnight (sample_signal BUY ACTIVE (Some false)) $100
     = sample_signal BUY ACTIVE (Some false)
  /\ targets (updateHitStatus midnight
                (sample_signal BUY ACTIVE (Some false)) $94)
     = [$105; $110; $115].
Proof.
  destruct (updateHitStatus_frame midnight
              (sample_signal HOLD ACTIVE (Some false)) $94)
    as (_ & _ & HH & _).
  destruct (updateHitStatus_frame midnight
              (sample_signal BUY ACTIVE (Some false)) $100)
    as (_ & HN & _ & _).
  destruct (updateHitStatus_frame midnight
              (sample_signal BUY ACTIVE (Some false)) $94)
    as ((_ & _ & HT & _) & _).
  split; [apply HH; reflexivity|].
  split; [apply HN; reflexivity|].
  exact HT.
Defined.

Lemma indicators_degenerate_inputs_witness :
  calculateSMA [$100; $101] 20 = $101
  /\ calculateRSI [$100; $101] 14 = $50
  /\ calculateRSI (map Num.of_Z [1; 2; 3; 4; 5; 6; 7; 8; 9; 10; 11; 12; 13;
                                 14; 15]%Z) 14 = $100.
Proof.
  destruct indicators_degenerate_inputs as (HS & HR & HL).
  split; [apply (HS [$100] $101 20%nat); simpl; lia|].
  split; [apply HR; simpl; lia|].
  apply HL; [simpl; lia|]. vm_compute. reflexivity.
Defined.


Lemma computeAccuracy_quotient_first_witness :
  is_resolved (sample_trade "A" TARGET (Some true)) = true
  /\ is_resolved (sample_trade "D" ACTIVE None) = false
  /\ TradeManager.computeAccuracy
       [sample_trade "A" TARGET (Some true);
        sample_trade "B" TARGET (Some true);
        sample_trade "C" STOP (Some true);
        sample_trade "D" ACTIVE None]
     = $67
  /\ Binary64.computeAccuracy
       [sample_trade "A" TARGET (Some true);
        sample_trade "B" TARGET (Some true);
        sample_trade "C" STOP (Some true);
        sample_trade "D" ACTIVE None]
     = F64.of_Z 67.
Proof.
  split; [reflexivity|]. split; [reflexivity|].
  pose proof (computeAccuracy_quotient_first []) as H.
  cbv zeta in H. destruct H as (_ & _ & _ & H).
  exact (H (sample_trade "A" TARGET (Some true))
           (sample_trade "B" TARGET (Some true))
           (sample_trade "C" STOP (Some true))
           (sample_trade "D" ACTIVE None)
           eq_refl eq_refl eq_refl eq_refl eq_refl eq_refl eq_refl eq_refl).
Defined.

Lemma detectVolumeSurge_window_witness :
  length (repeat $100 9 ++ [$400]) = 10%nat
  /\ detectVolumeSurge ([$90] ++ repeat $100 9 ++ [$400]) = true
  /\ length (repeat (F64.of_Z 100) 9 ++ [F64.of_Z 400]) = 10%nat
  /\ Binary64.detectVolumeSurge
       ([F64.of_Z 90] ++ repeat (F64.of_Z 100) 9 ++ [F64.of_Z 400])
     = true
  /\ detectVolumeSurge (repeat $100 9) = false.
Proof.
  destruct detectVolumeSurge_window as (HE & HB & HS & _).
  split; [reflexivity|].
  split.
  { destruct (HE [$90] (repeat $100 9 ++ [$400]) eq_refl) as (-> & _).
    vm_compute. reflexivity. }
  split; [reflexivity|].
  split.
  { destruct (HB [F64.of_Z 90]
                (repeat (F64.of_Z 100) 9 ++ [F64.of_Z 400]) eq_refl)
      as (-> & _).
    vm_compute. reflexivity. }
  apply HS. simpl. lia.
Defined.

(* ================================================================== *)
(** ** Further properties of the engine *)
(* ================================================================== *)

(** *** Order facts on [number] *)


Lemma le_fin_iff (a b : Q) : (Fin a <=? Fin b) = true <-> (a <= b)%Q.
Proof. apply Qle_bool_iff. Qed.

(** Turn boolean comparisons of rationals into propositions and close the
    goal by linear arithmetic. *)
Ltac q_order :=
  repeat match goal with
         | H : Num.Qlt_bool _ _ = true |- _ => apply Qlt_bool_iff in H
         | H : Num.Qlt_bool _ _ = false |- _ => apply Qlt_bool_false_iff in H
         | H : Qle_bool _ _ = true |- _ => apply Qle_bool_iff in H
         | |- Num.Qlt_bool _ _ = true => apply Qlt_bool_iff
         | |- Num.Qlt_bool _ _ = false => apply Qlt_bool_false_iff
         | |- Qle_bool _ _ = true => apply Qle_bool_iff
         end;
  lra.

(** A bound above the larger of two numbers is above both. *)
Lemma max2_lt (x y c : number) :
  (Num.max2 x y <? c) = true -> (x <? c) = true /\ (y <? c) = true.
Proof.
  destruct x as [a| | |], y as [b| | |], c as [q| | |];
    cbn [Num.max2 Num.lt];
    try destruct (Num.Qlt_bool a b) eqn:E;
    cbn [Num.lt]; intro H; try discriminate;
    split; try reflexivity; q_order.
Qed.

(** A bound below the smaller of two numbers is below both. *)
Lemma min2_gt (x y c : number) :
  (c <? Num.min2 x y) = true -> (c <? x) = true /\ (c <? y) = true.
Proof.
  destruct x as [a| | |], y as [b| | |], c as [q| | |];
    cbn [Num.min2 Num.lt];
    try destruct (Num.Qlt_bool b a) eqn:E;
    cbn [Num.lt]; intro H; try discriminate;
    split; try reflexivity; q_order.
Qed.

Lemma max_fold_lt (xs : list number) (init c : number) :
  (fold_left Num.max2 xs init <? c) = true ->
  (init <? c) = true /\ forall x, In x xs -> (x <? c) = true.
Proof.
  revert init. induction xs as [|a xs IH]; intros init H; simpl in *.
  - split; [exact H | intros x []].
  - destruct (IH _ H) as [Hm Hall]. destruct (max2_lt _ _ _ Hm) as [Hi Ha].
    split; [exact Hi|]. intros x [<-|Hx]; [exact Ha | apply Hall, Hx].
Qed.

Lemma min_fold_gt (xs : list number) (init c : number) :
  (c <? fold_left Num.min2 xs init) = true ->
  (c <? init) = true /\ forall x, In x xs -> (c <? x) = true.
Proof.
  revert init. induction xs as [|a xs IH]; intros init H; simpl in *.
  - split; [exact H | intros x []].
  - destruct (IH _ H) as [Hm Hall]. destruct (min2_gt _ _ _ Hm) as [Hi Ha].
    split; [exact Hi|]. intros x [<-|Hx]; [exact Ha | apply Hall, Hx].
Qed.

(** *** The liquidity sweep never fires *)

(** The window [arr.slice(-s, -e)] holds [arr[arr.length - k]] whenever
    [e < k <= s] and the array has at least [k] elements (here [s] and [e]
    are written [S s] and [S e]). *)
Lemma from_end_in_slice (arr : list number) (s e k : nat) :
  (S e < k)%nat -> (k <= S s)%nat -> (k <= length arr)%nat ->
  In (Arr.from_end arr k)
     (Arr.slice (- Z.of_nat (S s)) (- Z.of_nat (S e)) arr).
Proof.
  intros He Hs Hk. unfold Arr.from_end, Arr.slice, Arr.get.
  destruct (Nat.ltb_spec (length arr) k); [lia|].
  rewrite !clamp_neg.
  set (from := (length arr - S s)%nat). set (to := (length arr - S e)%nat).
  replace (nth (length arr - k) arr NaN)
    with (nth (length arr - k - from) (firstn (to - from) (skipn from arr))
            NaN).
  - apply nth_In. rewrite length_firstn, length_skipn. unfold from, to. lia.
  - rewrite nth_firstn.
    destruct (Nat.ltb_spec (length arr - k - from) (to - from));
      [|unfold from, to in *; lia].
    rewrite nth_skipn. f_equal. unfold from. lia.
Qed.

Lemma detectLiquiditySweep_none highs lows current :
  detectLiquiditySweep highs lows current = None.
Proof.
  unfold detectLiquiditySweep.
  destruct (Nat.ltb_spec (length highs) 5); [reflexivity|].
  destruct (Nat.ltb_spec (length lows) 5); [reflexivity|]. simpl orb.
  cbv zeta. unfold Num.gt.
  destruct (Num.max_list (Arr.slice (-6) (-1) highs) <? current) eqn:EH.
  - apply max_fold_lt in EH as [_ EH].
    specialize (EH (Arr.from_end highs 2)
                  (@from_end_in_slice highs 5 0 2 ltac:(lia) ltac:(lia)
                     ltac:(lia))).
    rewrite (lt_asym _ _ EH). simpl andb.
    destruct (current <? Num.min_list (Arr.slice (-6) (-1) lows)) eqn:EL;
      [|reflexivity].
    apply min_fold_gt in EL as [_ EL].
    specialize (EL (Arr.from_end lows 2)
                  (@from_end_in_slice lows 5 0 2 ltac:(lia) ltac:(lia)
                     ltac:(lia))).
    rewrite (lt_asym _ _ EL). reflexivity.
  - simpl andb.
    destruct (current <? Num.min_list (Arr.slice (-6) (-1) lows)) eqn:EL;
      [|reflexivity].
    apply min_fold_gt in EL as [_ EL].
    specialize (EL (Arr.from_end lows 2)
                  (@from_end_in_slice lows 5 0 2 ltac:(lia) ltac:(lia)
                     ltac:(lia))).
    rewrite (lt_asym _ _ EL). reflexivity.
Qed.

(** X1. [detectLiquiditySweep] answers [null] on every input: the window
    [slice(-6, -1)] over which the recent high (low) is taken contains the
    second-to-last bar, so the price cannot be above (below) the window and
    below (above) that bar at once.  Hence the liquidity-sweep bonus is
    never part of a confidence score, and the bonuses add up to 41 at
    most. *)
Theorem detectLiquiditySweep_never_fires :
  (forall highs lows current, detectLiquiditySweep highs lows current = None)
  /\ (forall stock dir, (0 <= aligned_bonuses stock dir <= 41)%Z).
Proof.
  split; [exact detectLiquiditySweep_none|].
  intros stock dir. unfold aligned_bonuses. cbv zeta.
  rewrite detectLiquiditySweep_none. simpl (bonus (is_bias None dir) 4).
  repeat match goal with
         | |- context [bonus ?c ?w] =>
             let H := fresh "Hb" in
             assert (H := @bonus_bounds c w ltac:(lia));
             generalize dependent (bonus c w); intros
         end.
  lia.
Qed.

(** *** Live ticks between the levels *)

Lemma generated_levels stock c :
  Api.current stock = Fin c ->
  let r := generateSMCSignal stock in
  match signal r with
  | BUY => stoploss r = Fin (c * (985 # 1000))
           /\ Arr.get (targets r) 0 = Fin (c * (101 # 100))
  | SELL => stoploss r = Fin (c * (1015 # 1000))
            /\ Arr.get (targets r) 0 = Fin (c * (99 # 100))
  | HOLD => stoploss r = Fin c /\ Arr.get (targets r) 0 = Fin c
  end.
Proof.
  intro Hc. cbv zeta. rewrite stoploss_cases, targets_cases.
  destruct (signal (generateSMCSignal stock)); rewrite Hc; split; reflexivity.
Qed.





(** *** Invariants of the live tracker *)

Lemma updateHitStatus_consistent now s price :
  consistent s = true -> consistent (updateHitStatus now s price) = true.
Proof.
  intro H. unfold updateHitStatus.
  destruct (truthy (resolved s)) eqn:R; [exact H|].
  destruct (signal s);
    repeat match goal with
           | |- context [if ?b then _ else _] => destruct b
           end;
    try exact H; reflexivity.
Qed.

Lemma run_ticks_consistent ticks s :
  consistent s = true -> consistent (run_ticks ticks s) = true.
Proof.
  revert s. induction ticks as [|t ticks IH]; intros s H; [exact H|].
  apply IH. apply updateHitStatus_consistent. exact H.
Qed.

(** What a tick does to an unresolved record: nothing, or a resolution at
    the price of the tick. *)
Lemma updateHitStatus_step now s price :
  truthy (resolved s) = false ->
  updateHitStatus now s price = s
  \/ exists status text,
       (status = STOP \/ status = TARGET)
       /\ updateHitStatus now s price = resolve s status text now price.
Proof.
  intro R. unfold updateHitStatus. rewrite R.
  destruct (signal s);
    repeat match goal with
           | |- context [if ?b then _ else _] => destruct b
           end;
    try (left; reflexivity);
    right; do 2 eexists; (split; [|reflexivity]); auto.
Qed.

Lemma run_ticks_resolved ticks s :
  resolved s = Some true -> run_ticks ticks s = s.
Proof.
  induction ticks as [|t ticks IH]; intro H; [reflexivity|].
  unfold run_ticks in *. simpl. rewrite updateHitStatus_resolved by exact H.
  apply IH, H.
Qed.

(** X3. Along a live feed the status and the [resolved] flag stay in
    step: [updateHitStatus] keeps "resolved exactly when the status is not
    ACTIVE", a generated signal starts with it, so every record reached
    from a generated signal by any run of ticks has it; and whenever a
    tick changes a record, it makes it a resolved STOP or TARGET whose
    [finalPrice] is the price of the tick and whose [resolvedAt] is the
    time of the tick. *)
Theorem live_feed_keeps_status_and_flag_in_step
    (stock : Api.StockData) (ticks : list (string * number))
    (now : string) (s : SignalResult) (price : number) :
  consistent (run_ticks ticks (generateSMCSignal stock)) = true
  /\ (consistent s = true -> consistent (updateHitStatus now s price) = true)
  /\ (updateHitStatus now s price <> s ->
      let r := updateHitStatus now s price in
      resolved r = Some true
      /\ (hitStatus r = STOP \/ hitStatus r = TARGET)
      /\ finalPrice r = Some price
      /\ resolvedAt r = Some now).
Proof.
  split; [apply run_ticks_consistent; reflexivity|].
  split; [apply updateHitStatus_consistent|].
  intro Hne. cbv zeta.
  destruct (truthy (resolved s)) eqn:R.
  - exfalso. apply Hne. unfold updateHitStatus. rewrite R. reflexivity.
  - destruct (updateHitStatus_step now s price R)
      as [E | (status & text & Hst & E)]; [contradiction|].
    rewrite E. simpl. repeat split; try reflexivity. exact Hst.
Qed.

(** X4. The first tick that resolves a record decides it: whatever ticks
    follow, the run ends in the record that tick produced.  In particular
    a tick repeated at the same price changes nothing more. *)
Theorem first_resolving_tick_wins
    (now now' : string) (s : SignalResult) (price : number)
    (later : list (string * number)) :
  (updateHitStatus now s price <> s ->
   run_ticks ((now, price) :: later) s = updateHitStatus now s price)
  /\ updateHitStatus now' (updateHitStatus now s price) price
     = updateHitStatus now s price.
Proof.
  assert (T : updateHitStatus now s price <> s ->
              resolved (updateHitStatus now s price) = Some true).
  { intro Hne. destruct (truthy (resolved s)) eqn:R.
    - exfalso. apply Hne. unfold updateHitStatus. rewrite R. reflexivity.
    - destruct (updateHitStatus_step now s price R)
        as [E | (status & text & _ & E)]; [contradiction|].
      rewrite E. reflexivity. }
  split.
  - intro Hne. unfold run_ticks. simpl.
    apply (run_ticks_resolved later). apply T, Hne.
  - destruct (truthy (resolved s)) eqn:R.
    + unfold updateHitStatus. rewrite R. rewrite R. reflexivity.
    + destruct (updateHitStatus_step now s price R)
        as [E | (status & text & _ & E)].
      * rewrite E. unfold updateHitStatus in *. rewrite R in *.
        destruct (signal s);
          repeat match goal with
                 | H : context [if ?b then _ else _] |- _ => destruct b
                 end; try reflexivity;
          apply (f_equal resolved) in E; simpl in E; rewrite <- E in R;
          discriminate R.
      * rewrite E. reflexivity.
Qed.

(** *** Trades built from signals *)

Lemma as_signal_of_signal (s : SignalResult) (sym : string) (b : bool) :
  resolved s = Some b -> resolvedAt s = None ->
  TradeManager.as_signal (TradeManager.signalToTradeResult s sym) = s.
Proof.
  intros R A. destruct s. simpl in *. subst. reflexivity.
Qed.

(** The structural tag depends only on fields the tracker never writes. *)
Lemma tag_of_resolve s status text now price sym :
  TradeManager.bos
    (TradeManager.signalToTradeResult (resolve s status text now price) sym)
  = TradeManager.bos (TradeManager.signalToTradeResult s sym).
Proof. reflexivity. Qed.

Lemma merge_of_signal (s s' : SignalResult) (sym : string) :
  signal s' = signal s -> stoploss s' = stoploss s ->
  targets s' = targets s -> confidence s' = confidence s ->
  entryPrice s' = entryPrice s ->
  TradeManager.merge (TradeManager.signalToTradeResult s sym) s'
  = TradeManager.signalToTradeResult s' sym.
Proof.
  intros H1 H2 H3 H4 H5. destruct s, s'. simpl in *. subst. reflexivity.
Qed.

Lemma updateHitStatus_fields now s price :
  let r := updateHitStatus now s price in
  signal r = signal s /\ stoploss r = stoploss s /\ targets r = targets s
  /\ confidence r = confidence s /\ entryPrice r = entryPrice s.
Proof.
  cbv zeta. unfold updateHitStatus.
  destruct (truthy (resolved s)); [repeat split|].
  destruct (signal s) eqn:D;
    repeat match goal with
           | |- context [if ?b then _ else _] => destruct b
           end; simpl; rewrite ?D; repeat split.
Qed.

Lemma evaluateEndOfDayResult_fields now s dayHigh dayLow closePrice :
  let r := evaluateEndOfDayResult now s dayHigh dayLow closePrice in
  signal r = signal s /\ stoploss r = stoploss s /\ targets r = targets s
  /\ confidence r = confidence s /\ entryPrice r = entryPrice s.
Proof.
  cbv zeta. unfold evaluateEndOfDayResult.
  destruct (truthy (resolved s)); [repeat split|].
  destruct (signal s) eqn:D;
    repeat match goal with
           | |- context [if ?b then _ else _] => destruct b
           end; simpl; rewrite ?D; repeat split.
Qed.

(** X5. For a signal still carrying its [resolved] flag and no
    [resolvedAt] (as every generated signal does), converting it to a
    trade and back gives the signal again, and the trade-level wrappers do
    what the signal-level functions do: updating the converted trade is
    converting the updated signal, for live ticks and for the end-of-day
    evaluation. *)
Theorem trade_wrappers_follow_signal
    (now : string) (s : SignalResult) (sym : string) (b : bool)
    (price dayHigh dayLow closePrice : number) :
  resolved s = Some b ->
  resolvedAt s = None ->
  TradeManager.as_signal (TradeManager.signalToTradeResult s sym) = s
  /\ TradeManager.updateLiveTrade now
       (TradeManager.signalToTradeResult s sym) price
     = TradeManager.signalToTradeResult (updateHitStatus now s price) sym
  /\ TradeManager.endOfDayEvaluate now
       (TradeManager.signalToTradeResult s sym) dayHigh dayLow closePrice
     = TradeManager.signalToTradeResult
         (evaluateEndOfDayResult now s dayHigh dayLow closePrice) sym.
Proof.
  intros R A. pose proof (as_signal_of_signal s sym R A) as RT.
  split; [exact RT|]. split.
  - unfold TradeManager.updateLiveTrade. rewrite RT.
    destruct (updateHitStatus_fields now s price) as (H1 & H2 & H3 & H4 & H5).
    apply merge_of_signal; assumption.
  - unfold TradeManager.endOfDayEvaluate. rewrite RT.
    destruct (evaluateEndOfDayResult_fields now s dayHigh dayLow closePrice)
      as (H1 & H2 & H3 & H4 & H5).
    apply merge_of_signal; assumption.
Qed.

(** X6. A trade made from a signal generated at a finite positive price
    is tagged "CHoCH" when the signal is BUY or SELL and carries no tag on
    HOLD: the tag "BOS" asks for an entry price beyond the first target,
    and a generated signal places its first target one percent away from
    the entry on the far side. *)
Theorem generated_trade_tag (stock : Api.StockData) (sym : string) (c : Q) :
  Api.current stock = Fin c ->
  (0 < c)%Q ->
  TradeManager.bos
    (TradeManager.signalToTradeResult (generateSMCSignal stock) sym)
  = match signal (generateSMCSignal stock) with
    | HOLD => None
    | _ => Some TradeManager.CHoCH
    end.
Proof.
  intros Hc Hpos. unfold TradeManager.signalToTradeResult.
  cbn [TradeManager.bos]. cbv zeta.
  pose proof (generated_levels stock Hc) as L. cbv zeta in L.
  assert (E : entryPrice (generateSMCSignal stock) = Some (Fin c))
    by (simpl; rewrite Hc; reflexivity).
  assert (N : (0 <? length (targets (generateSMCSignal stock)))%nat = true).
  { rewrite targets_cases. destruct (signal (generateSMCSignal stock));
      reflexivity. }
  rewrite E, N. cbn [TradeManager.truthy_number].
  assert (Z0 : Qeq_bool c 0 = false).
  { destruct (Qeq_bool c 0) eqn:Q0; [|reflexivity].
    apply Qeq_bool_iff in Q0. exfalso. lra. }
  rewrite Z0. cbn [negb andb].
  destruct (signal (generateSMCSignal stock)); destruct L as [_ Lt];
    rewrite ?Lt; [| |reflexivity]; unfold Num.gt; cbn [Num.lt].
  - destruct (Num.Qlt_bool (c * (101 # 100)) c) eqn:Q1;
      [exfalso; q_order | reflexivity].
  - destruct (Num.Qlt_bool c (c * (99 # 100))) eqn:Q1;
      [exfalso; q_order | reflexivity].
Qed.

(** X7. The trade-level wrappers never touch the symbol, direction,
    stoploss, targets, confidence, entry and tag of a trade; on a trade
    that is already resolved they keep the status, the flag and the final
    price, but they are not the identity: [resolvedAt] comes back
    [undefined], because the signal they build from the trade does not
    carry it, and an absent explanation becomes "No explanation". *)
Theorem wrappers_on_resolved_trade
    (now : string) (t : TradeManager.TradeResult)
    (price dayHigh dayLow closePrice : number) :
  let kept (t' : TradeManager.TradeResult) :=
    TradeManager.symbol t' = TradeManager.symbol t
    /\ TradeManager.signal t' = TradeManager.signal t
    /\ TradeManager.stoploss t' = TradeManager.stoploss t
    /\ TradeManager.targets t' = TradeManager.targets t
    /\ TradeManager.confidence t' = TradeManager.confidence t
    /\ TradeManager.entry t' = TradeManager.entry t
    /\ TradeManager.bos t' = TradeManager.bos t in
  let frozen (t' : TradeManager.TradeResult) :=
    TradeManager.hitStatus t' = TradeManager.hitStatus t
    /\ TradeManager.resolved t' = Some true
    /\ TradeManager.finalPrice t' = TradeManager.finalPrice t
    /\ TradeManager.resolvedAt t' = None
    /\ TradeManager.explanation t'
       = Some match TradeManager.explanation t with
              | Some e => e
              | None => "No explanation"%string
              end in
  kept (TradeManager.updateLiveTrade now t price)
  /\ kept (TradeManager.endOfDayEvaluate now t dayHigh dayLow closePrice)
  /\ (TradeManager.resolved t = Some true ->
      frozen (TradeManager.updateLiveTrade now t price)
      /\ frozen (TradeManager.endOfDayEvaluate now t dayHigh dayLow
                   closePrice)).
Proof.
  cbv zeta. split; [repeat split|]. split; [repeat split|].
  intro R.
  assert (RS : resolved (TradeManager.as_signal t) = Some true)
    by (simpl; rewrite R; reflexivity).
  unfold TradeManager.updateLiveTrade, TradeManager.endOfDayEvaluate.
  rewrite (updateHitStatus_resolved now _ price RS).
  rewrite (evaluateEndOfDayResult_resolved now _ dayHigh dayLow closePrice RS).
  simpl. rewrite R. repeat split.
Qed.

(** *** Range and symmetry of the accuracy *)

Lemma countWhere_and_le (p q : TradeManager.TradeResult -> bool) trades :
  (countWhere (fun t => p t && q t)%bool trades <= countWhere p trades)%nat.
Proof.
  unfold countWhere. induction trades as [|t ts IH]; [apply le_n|].
  simpl. destruct (p t), (q t); simpl; lia.
Qed.

Lemma accuracy_formula_range (hits res : nat) :
  (hits <= res)%nat ->
  exists z : Z, accuracy_formula hits res = $z /\ (0 <= z <= 100)%Z.
Proof.
  intro H. unfold accuracy_formula.
  destruct (Nat.eqb_spec res 0) as [|Hn]; [exists 0%Z; split; [reflexivity|lia]|].
  pose proof (inject_nat_nonzero Hn) as Hq.
  unfold Num.of_nat, Num.of_Z. cbn [Num.mul]. rewrite div_fin by exact Hq.
  cbn [Num.round]. eexists. split; [reflexivity|].
  set (h := inject_Z (Z.of_nat hits)). set (r := inject_Z (Z.of_nat res)).
  assert (Hr : (0 < r)%Q).
  { unfold r. rewrite <- (Zlt_Qlt 0). lia. }
  assert (Hh : (0 <= h)%Q).
  { unfold h. rewrite <- (Zle_Qle 0). lia. }
  assert (Hhr : (h <= r)%Q).
  { unfold h, r. rewrite <- Zle_Qle. lia. }
  assert (L : (0 <= inject_Z 100 * h / r)%Q).
  { apply Qle_shift_div_l; [exact Hr|]. rewrite Qmult_0_l.
    apply Qmult_le_0_compat; [discriminate | exact Hh]. }
  assert (U : (inject_Z 100 * h / r <= 100)%Q).
  { apply Qle_shift_div_r; [exact Hr|].
    change (inject_Z 100) with 100%Q. lra. }
  split.
  - apply Z.le_trans with (Qfloor 0); [vm_compute; discriminate|].
    apply Qfloor_resp_le. lra.
  - apply Z.le_trans with (Qfloor (100 + (1 # 2)));
      [|vm_compute; discriminate].
    apply Qfloor_resp_le. lra.
Qed.

Lemma countWhere_perm (p : TradeManager.TradeResult -> bool) l l' :
  Permutation l l' -> countWhere p l = countWhere p l'.
Proof.
  unfold countWhere. induction 1 as [|x l l' _ IH|x y l|l l' l'' _ IH1 _ IH2].
  - reflexivity.
  - simpl. destruct (p x); simpl; rewrite IH; reflexivity.
  - simpl. destruct (p x), (p y); reflexivity.
  - rewrite IH1. exact IH2.
Qed.

(** X8. [computeAccuracy] always answers an integer between 0 and 100,
    whatever the collection holds. *)
Theorem computeAccuracy_range (trades : list TradeManager.TradeResult) :
  exists z : Z,
    TradeManager.computeAccuracy trades = $z /\ (0 <= z <= 100)%Z.
Proof.
  rewrite computeAccuracy_unfold. apply accuracy_formula_range.
  apply countWhere_and_le.
Qed.

(** X9. [computeAccuracy] does not depend on the order in which the
    trades are stored. *)
Theorem computeAccuracy_order_free (l l' : list TradeManager.TradeResult) :
  Permutation l l' ->
  TradeManager.computeAccuracy l = TradeManager.computeAccuracy l'.
Proof.
  intro P. rewrite !computeAccuracy_unfold.
  rewrite (countWhere_perm _ P), (countWhere_perm is_resolved P).
  reflexivity.
Qed.

(** *** The sanitiser of the data layer *)

Lemma or_else_price (lastValid : number) :
  lastValid = $0 \/ is_price lastValid = true ->
  is_price (FetchStockData.or_else lastValid $1) = true.
Proof.
  intros [-> | H]; [reflexivity|].
  destruct lastValid as [q| | |]; simpl in H; try discriminate.
  unfold FetchStockData.or_else.
  destruct (Qeq_bool q 0) eqn:E; [reflexivity|]. exact H.
Qed.

Lemma kept_is_price (n : number) :
  (negb (FetchStockData.isFinite n) || (n <=? $0))%bool = false ->
  is_price n = true.
Proof.
  destruct n as [q| | |]; simpl; try discriminate.
  intro H. unfold Num.Qlt_bool. apply negb_true_iff. exact H.
Qed.

Lemma price_is_kept (n : number) :
  is_price n = true ->
  (negb (FetchStockData.isFinite n) || (n <=? $0))%bool = false.
Proof.
  destruct n as [q| | |]; simpl; try discriminate.
  unfold Num.Qlt_bool. intro H. apply negb_true_iff in H. exact H.
Qed.

Lemma sanitize_from_prices lastValid arr :
  lastValid = $0 \/ is_price lastValid = true ->
  Forall (fun n => is_price n = true)
         (FetchStockData.sanitize_from lastValid arr).
Proof.
  revert lastValid. induction arr as [|n rest IH]; intros lastValid H;
    [constructor|].
  simpl.
  destruct (negb (FetchStockData.isFinite n) || (n <=? $0))%bool eqn:E.
  - constructor; [apply or_else_price, H | apply IH, H].
  - apply kept_is_price in E. constructor; [exact E|]. apply IH. right. exact E.
Qed.

Lemma sanitize_from_length lastValid arr :
  length (FetchStockData.sanitize_from lastValid arr) = length arr.
Proof.
  revert lastValid. induction arr as [|n rest IH]; intro lastValid;
    [reflexivity|].
  simpl. destruct (negb (FetchStockData.isFinite n) || (n <=? $0))%bool;
    simpl; rewrite IH; reflexivity.
Qed.

Lemma sanitize_from_clean lastValid arr :
  Forall (fun n => is_price n = true) arr ->
  FetchStockData.sanitize_from lastValid arr = arr.
Proof.
  intro H. revert lastValid. induction H as [|n rest Hn _ IH];
    intro lastValid; [reflexivity|].
  simpl. rewrite (price_is_kept _ Hn), IH. reflexivity.
Qed.

(** X10. [sanitizeArray] returns an array of the same length in which
    every sample is finite and strictly positive; it returns an array of
    such samples as it is; and sanitising twice is sanitising once. *)
Theorem sanitizeArray_prices (arr : list number) :
  length (FetchStockData.sanitizeArray arr) = length arr
  /\ Forall (fun n => is_price n = true) (FetchStockData.sanitizeArray arr)
  /\ (Forall (fun n => is_price n = true) arr ->
      FetchStockData.sanitizeArray arr = arr)
  /\ FetchStockData.sanitizeArray (FetchStockData.sanitizeArray arr)
     = FetchStockData.sanitizeArray arr.
Proof.
  unfold FetchStockData.sanitizeArray.
  split; [apply sanitize_from_length|].
  split; [apply sanitize_from_prices; left; reflexivity|].
  split; [apply sanitize_from_clean|].
  apply sanitize_from_clean. apply sanitize_from_prices. left. reflexivity.
Qed.

Lemma last_cons (A : Type) (a : A) (l : list A) (d : A) :
  last (a :: l) d = last l a.
Proof.
  revert a d. induction l as [|b l IH]; intros a d; [reflexivity|].
  change (last (a :: b :: l) d) with (last (b :: l) d).
  rewrite !IH. reflexivity.
Qed.

(** A sample that is not a price is replaced by the last price before it,
    or by 1 when no price came before it. *)
Lemma sanitize_from_fill_app lastValid front back :
  FetchStockData.sanitize_from lastValid (front ++ back)
  = FetchStockData.sanitize_from lastValid front
    ++ FetchStockData.sanitize_from
         (last (filter is_price front) lastValid) back.
Proof.
  revert lastValid. induction front as [|n rest IH]; intro lastValid;
    [reflexivity|].
  simpl.
  destruct (negb (FetchStockData.isFinite n) || (n <=? $0))%bool eqn:E.
  - assert (P : is_price n = false).
    { destruct (is_price n) eqn:P; [|reflexivity].
      rewrite (price_is_kept _ P) in E. discriminate. }
    rewrite P. simpl. rewrite IH. reflexivity.
  - rewrite (kept_is_price _ E), last_cons, IH. reflexivity.
Qed.

(** X11. In the output of [sanitizeArray], a sample that is not a finite
    positive number is replaced by the nearest finite positive sample
    before it, and by 1 when there is none. *)
Theorem sanitizeArray_fill (front back : list number) (bad : number) :
  is_price bad = false ->
  nth (length front) (FetchStockData.sanitizeArray (front ++ bad :: back)) NaN
  = last (filter is_price front) $1.
Proof.
  intro B. unfold FetchStockData.sanitizeArray.
  rewrite sanitize_from_fill_app, app_nth2;
    rewrite sanitize_from_length; [|lia].
  rewrite Nat.sub_diag. simpl.
  assert (E : (negb (FetchStockData.isFinite bad) || (bad <=? $0))%bool = true).
  { destruct (negb (FetchStockData.isFinite bad) || (bad <=? $0))%bool eqn:E;
      [reflexivity|]. rewrite (kept_is_price _ E) in B. discriminate. }
  rewrite E. simpl.
  destruct (filter is_price front) as [|p ps] eqn:F; [reflexivity|].
  assert (P : is_price (last (p :: ps) $0) = true).
  { assert (A : Forall (fun n => is_price n = true) (p :: ps)).
    { rewrite <- F. apply Forall_forall. intros x Hx.
      apply filter_In in Hx. apply Hx. }
    destruct (@exists_last _ (p :: ps) ltac:(discriminate)) as (i & x & Ei).
    rewrite Ei in *. rewrite last_last.
    apply Forall_app in A as [_ A]. inversion A. assumption. }
  destruct (@exists_last _ (p :: ps) ltac:(discriminate)) as (i & x & Ei).
  rewrite Ei in *. rewrite !last_last in *.
  destruct x as [q| | |]; simpl in P; try discriminate.
  unfold FetchStockData.or_else.
  destruct (Qeq_bool q 0) eqn:Q0; [|reflexivity].
  apply Qeq_bool_iff in Q0. exfalso. q_order.
Qed.

(** *** The stored collection *)

Lemma find_app_none (A : Type) (f : A -> bool) (l l' : list A) :
  find f l = None -> find f (l ++ l') = find f l'.
Proof.
  induction l as [|a l IH]; [reflexivity|]. simpl.
  destruct (f a); [discriminate | exact IH].
Qed.

Lemma find_filter_same (f g : TradeManager.TradeResult -> bool) l :
  (forall t, f t = true -> g t = true) ->
  find f (filter g l) = find f l.
Proof.
  intro H. induction l as [|a l IH]; [reflexivity|]. simpl.
  destruct (g a) eqn:G; simpl.
  - destruct (f a); [reflexivity | exact IH].
  - destruct (f a) eqn:F; [rewrite (H _ F) in G; discriminate | exact IH].
Qed.

Lemma find_filter_out (f : TradeManager.TradeResult -> bool) l :
  find f (filter (fun t => negb (f t)) l) = None.
Proof.
  induction l as [|a l IH]; [reflexivity|]. simpl.
  destruct (f a) eqn:F; simpl; [exact IH|]. rewrite F. exact IH.
Qed.

Lemma NoDup_map_filter (f : TradeManager.TradeResult -> bool) l :
  NoDup (map TradeManager.symbol l) ->
  NoDup (map TradeManager.symbol (filter f l)).
Proof.
  induction l as [|a l IH]; intro H; [constructor|].
  simpl in *. inversion H as [|x xs Hx Hxs]; subst.
  destruct (f a); [|apply IH, Hxs].
  simpl. constructor; [|apply IH, Hxs].
  intro Hin. apply Hx. apply in_map_iff in Hin as (t & Et & Ht).
  apply filter_In in Ht as [Ht _]. apply in_map_iff. exists t. auto.
Qed.

(** X12. Storing a freshly generated trade replaces the record of its
    symbol: afterwards a lookup of that symbol finds the new trade, a
    lookup of any other symbol finds what it found before, and a
    collection with one record per symbol stays so. *)
Theorem replaceTrade_one_per_symbol
    (trades : list TradeManager.TradeResult) (s : string)
    (trade : TradeManager.TradeResult) :
  TradeManager.symbol trade = s ->
  HomeScreen.findTrade (HomeScreen.replaceTrade trades s trade) s
  = Some trade
  /\ (forall s', s' <> s ->
      HomeScreen.findTrade (HomeScreen.replaceTrade trades s trade) s'
      = HomeScreen.findTrade trades s')
  /\ (NoDup (map TradeManager.symbol trades) ->
      NoDup (map TradeManager.symbol
               (HomeScreen.replaceTrade trades s trade))).
Proof.
  intro Hs. unfold HomeScreen.findTrade, HomeScreen.replaceTrade.
  split; [|split].
  - rewrite find_app_none.
    + simpl. rewrite Hs, String.eqb_refl. reflexivity.
    + apply (find_filter_out (fun t => String.eqb (TradeManager.symbol t) s)).
  - intros s' Hne.
    assert (F : forall t, String.eqb (TradeManager.symbol t) s' = true ->
                          negb (String.eqb (TradeManager.symbol t) s) = true).
    { intros t Ht. apply String.eqb_eq in Ht. apply negb_true_iff.
      apply String.eqb_neq. congruence. }
    destruct (find (fun t => String.eqb (TradeManager.symbol t) s') trades)
      as [found|] eqn:E.
    + rewrite <- (find_filter_same _ _ trades F) in E.
      clear F. revert E.
      generalize (filter (fun t => negb (String.eqb (TradeManager.symbol t) s))
                    trades).
      intros l E. induction l as [|a l IH]; [discriminate|].
      simpl in *. destruct (String.eqb (TradeManager.symbol a) s');
        [exact E | apply IH, E].
    + rewrite <- (find_filter_same _ _ trades F) in E.
      rewrite find_app_none by exact E. simpl. rewrite Hs.
      destruct (String.eqb_spec s s'); [congruence | reflexivity].
  - intro H. rewrite map_app. simpl.
    apply NoDup_app_remove_l with (l := []). simpl.
    apply NoDup_Add with (a := s)
      (l := map TradeManager.symbol
              (filter (fun t => negb (String.eqb (TradeManager.symbol t) s))
                 trades)).
    + rewrite Hs. clear. generalize (map TradeManager.symbol
        (filter (fun t => negb (String.eqb (TradeManager.symbol t) s)) trades)).
      intro l. induction l as [|x l IH]; simpl; constructor. exact IH.
    + split; [apply NoDup_map_filter, H|].
      intro Hin. apply in_map_iff in Hin as (t & Et & Ht).
      apply filter_In in Ht as [_ Ht]. apply negb_true_iff in Ht.
      apply String.eqb_neq in Ht. contradiction.
Qed.

Lemma updatedTrade_resolved_status now e price :
  is_resolved e = true ->
  TradeManager.hitStatus (HomeScreen.updatedTrade now e price)
  = TradeManager.hitStatus e.
Proof.
  intro R. unfold HomeScreen.updatedTrade. cbn [TradeManager.hitStatus].
  unfold updateHitStatus. cbn [resolved HomeScreen.feed_signal].
  unfold is_resolved in R. rewrite R. reflexivity.
Qed.

Lemma find_unique trades s e :
  NoDup (map TradeManager.symbol trades) ->
  HomeScreen.findTrade trades s = Some e ->
  forall t, In t trades -> TradeManager.symbol t = s -> t = e.
Proof.
  unfold HomeScreen.findTrade.
  induction trades as [|a l IH]; intros H F t Ht Hs; [destruct Ht|].
  simpl in *. inversion H as [|x xs Hx Hxs]; subst.
  destruct (String.eqb_spec (TradeManager.symbol a) (TradeManager.symbol t))
    as [Ea|Ea].
  - injection F as <-. destruct Ht as [Ht|Ht]; [symmetry; exact Ht|].
    exfalso. apply Hx. rewrite Ea. apply in_map. exact Ht.
  - destruct Ht as [Ht|Ht]; [subst; contradiction|].
    apply (IH Hxs F t Ht eq_refl).
Qed.

Lemma countWhere_map_ext (p : TradeManager.TradeResult -> bool)
    (f : TradeManager.TradeResult -> TradeManager.TradeResult) l :
  (forall t, In t l -> p (f t) = p t) ->
  countWhere p (map f l) = countWhere p l.
Proof.
  unfold countWhere. induction l as [|a l IH]; intro H; [reflexivity|].
  simpl. rewrite (H a (or_introl eq_refl)).
  destruct (p a); simpl; rewrite IH; auto; intros; apply H; right; assumption.
Qed.

(** X13. The trade that the live-feed callback writes back carries the
    new status but not the new [resolved] flag.  On a collection with one
    record per symbol the callback therefore leaves every [resolved] flag
    and the accuracy as they were, whatever the tick: a stop or a target
    seen only by the live feed never reaches [computeAccuracy]. *)
Theorem live_feed_store_keeps_accuracy
    (now : string) (trades : list TradeManager.TradeResult)
    (s : string) (current : number) :
  NoDup (map TradeManager.symbol trades) ->
  map TradeManager.resolved (HomeScreen.onTick now trades s current)
  = map TradeManager.resolved trades
  /\ TradeManager.computeAccuracy (HomeScreen.onTick now trades s current)
     = TradeManager.computeAccuracy trades.
Proof.
  intro H. unfold HomeScreen.onTick.
  destruct (HomeScreen.findTrade trades s) as [e|] eqn:F;
    [|split; reflexivity].
  pose proof (find_unique trades H F) as U.
  unfold HomeScreen.storeUpdated.
  assert (K : forall t, In t trades ->
            (if String.eqb (TradeManager.symbol t) s
             then HomeScreen.updatedTrade now e current else t)
            = (if String.eqb (TradeManager.symbol t) s
               then HomeScreen.updatedTrade now t current else t)).
  { intros t Ht. destruct (String.eqb_spec (TradeManager.symbol t) s) as [E|E];
      [|reflexivity]. rewrite (U t Ht E). reflexivity. }
  split.
  - rewrite map_map. apply map_ext_in. intros t Ht. rewrite (K t Ht).
    destruct (String.eqb (TradeManager.symbol t) s); reflexivity.
  - rewrite !computeAccuracy_unfold.
    rewrite !countWhere_map_ext; [reflexivity| |].
    + intros t Ht. rewrite (K t Ht).
      destruct (String.eqb (TradeManager.symbol t) s); reflexivity.
    + intros t Ht. rewrite (K t Ht).
      destruct (String.eqb (TradeManager.symbol t) s); [|reflexivity].
      destruct (is_resolved t) eqn:R.
      * unfold is_target. rewrite (updatedTrade_resolved_status now t current R).
        unfold is_resolved in *. cbn [HomeScreen.updatedTrade
          TradeManager.resolved]. rewrite R. reflexivity.
      * unfold is_resolved in *. cbn [HomeScreen.updatedTrade
          TradeManager.resolved]. rewrite R. reflexivity.
Qed.

(** *** Ranges of the indicators on finite series *)






(** Where rounding shows.  In binary64 the moving averages can leave the
    range of their samples by an ulp ([calculateEMA([107, 107], 50)] is
    above 107, the mean of three samples of 0.1 is above 0.1), and the RSI
    of a series that swings between 1 and the largest double is [NaN]:
    its gains and losses overflow. *)
Lemma binary64_rounding_shows :
  F64.gt (Binary64.calculateEMA [F64.of_Z 107; F64.of_Z 107] 50)
         (F64.of_Z 107) = true
  /\ F64.gt (Binary64.calculateSMA
               [F64.lit 1 10; F64.lit 1 10; F64.lit 1 10] 3)
            (F64.lit 1 10) = true
  /\ PrimFloat.is_nan
       (Binary64.calculateRSI
          (flat_map (fun _ => [F64.of_Z 1; largest_double]) (seq 0 7)
           ++ [F64.of_Z 1]) 14) = true.
Proof. repeat split; vm_compute; reflexivity. Qed.

(** *** Agreement of the structure detectors *)

Lemma lt_scale_up (h : Q) (c : number) :
  (0 <= h)%Q ->
  (Fin h * lit 1002 1000 <? c) = true -> (Fin h * lit 1001 1000 <? c) = true.
Proof.
  intro Hh. unfold lit. cbn [Num.mul].
  destruct c as [q| | |]; cbn [Num.lt]; intro H; try discriminate;
    try reflexivity.
  q_order.
Qed.

Lemma lt_scale_down (l : Q) (c : number) :
  (0 <= l)%Q ->
  (c <? Fin l * lit 998 1000) = true -> (c <? Fin l * lit 999 1000) = true.
Proof.
  intro Hl. unfold lit. cbn [Num.mul].
  destruct c as [q| | |]; cbn [Num.lt]; intro H; try discriminate;
    try reflexivity.
  q_order.
Qed.

(** X17. When the high and the low three bars back are finite and not
    negative, the two structure detectors never point in opposite
    directions: a bullish break of structure excludes a bearish change of
    character, and a bearish break of structure excludes a bullish change
    of character. *)
Theorem detectBOS_detectCHoCH_agree (highs lows : list number) (h l : Q) :
  Arr.from_end highs 3 = Fin h -> (0 <= h)%Q ->
  Arr.from_end lows 3 = Fin l -> (0 <= l)%Q ->
  (detectBOS highs lows = Some BULLISH ->
   detectCHoCH highs lows <> Some BEARISH)
  /\ (detectBOS highs lows = Some BEARISH ->
      detectCHoCH highs lows <> Some BULLISH).
Proof.
  intros Hh Hh0 Hl Hl0. unfold detectBOS, detectCHoCH. cbv zeta.
  rewrite Hh, Hl. unfold Num.gt.
  destruct ((length highs <? 6)%nat || (length lows <? 6)%nat)%bool;
    [split; discriminate|].
  destruct ((length highs <? 8)%nat || (length lows <? 8)%nat)%bool;
    [split; discriminate|].
  split.
  - destruct (Fin h * lit 1002 1000 <? Arr.from_end highs 1) eqn:B.
    + intros _. rewrite (lt_scale_up _ Hh0 B).
      destruct (Arr.from_end lows 1 <? Fin l * lit 999 1000); simpl;
        discriminate.
    + destruct (Arr.from_end lows 1 <? Fin l * lit 998 1000); discriminate.
  - destruct (Fin h * lit 1002 1000 <? Arr.from_end highs 1) eqn:B;
      [discriminate|].
    destruct (Arr.from_end lows 1 <? Fin l * lit 998 1000) eqn:C;
      [|discriminate].
    intros _. rewrite (lt_scale_down _ Hl0 C).
    destruct (Fin h * lit 1001 1000 <? Arr.from_end highs 1); simpl;
      discriminate.
Qed.

(** *** Signals from little or no history *)

Lemma short_history_detectors stock dir :
  (length (Api.prices stock) < 5)%nat ->
  (length (Api.highs stock) < 3)%nat \/ (length (Api.lows stock) < 3)%nat ->
  (length (Api.volumes stock) < 10)%nat ->
  is_bias (detectBOS (Api.highs stock) (Api.lows stock)) dir = false
  /\ is_bias (detectCHoCH (Api.highs stock) (Api.lows stock)) dir = false
  /\ is_bias (detectOrderBlock (Api.prices stock)) dir = false
  /\ is_bias (detectMitigationBlock (Api.prices stock)) dir = false
  /\ is_bias (detectBreakerBlock (Api.prices stock)) dir = false
  /\ detectFairValueGap (Api.highs stock) (Api.lows stock) = false
  /\ detectVolumeSurge (Api.volumes stock) = false.
Proof.
  intros Hp Hhl Hv.
  unfold detectBOS, detectCHoCH, detectOrderBlock, detectMitigationBlock,
    detectBreakerBlock, detectFairValueGap, detectVolumeSurge.
  assert (E6 : ((length (Api.highs stock) <? 6)%nat
                || (length (Api.lows stock) <? 6)%nat)%bool = true).
  { apply orb_true_iff. destruct Hhl; [left|right]; apply Nat.ltb_lt; lia. }
  assert (E8 : ((length (Api.highs stock) <? 8)%nat
                || (length (Api.lows stock) <? 8)%nat)%bool = true).
  { apply orb_true_iff. destruct Hhl; [left|right]; apply Nat.ltb_lt; lia. }
  assert (E3 : ((length (Api.highs stock) <? 3)%nat
                || (length (Api.lows stock) <? 3)%nat)%bool = true).
  { apply orb_true_iff. destruct Hhl; [left|right]; apply Nat.ltb_lt; lia. }
  rewrite E6, E8, E3.
  destruct (Nat.ltb_spec (length (Api.prices stock)) 5); [|lia].
  destruct (Nat.ltb_spec (length (Api.prices stock)) 6); [|lia].
  destruct (Nat.ltb_spec (length (Api.prices stock)) 10); [|lia].
  destruct (Nat.ltb_spec (length (Api.volumes stock)) 10); [|lia].
  repeat split.
Qed.

(** X18. When the history is too short for every detector (fewer than 5
    closes, fewer than 3 highs or lows, fewer than 10 volumes), a BUY or
    SELL signal carries exactly the base confidence 70 and the base
    explanation, with no clause appended. *)
Theorem short_history_base_signal (stock : Api.StockData) :
  (length (Api.prices stock) < 5)%nat ->
  (length (Api.highs stock) < 3)%nat \/ (length (Api.lows stock) < 3)%nat ->
  (length (Api.volumes stock) < 10)%nat ->
  let r := generateSMCSignal stock in
  match signal r with
  | BUY => confidence r = $70
           /\ explanation r
              = "Price above SMA20 & EMA50 with bullish momentum."%string
  | SELL => confidence r = $70
            /\ explanation r
               = "Price below SMA20 & EMA50 with bearish momentum."%string
  | HOLD => confidence r = $50
            /\ explanation r = "Neutral: waiting for confirmation."%string
  end.
Proof.
  intros Hp Hhl Hv. cbv zeta.
  assert (BB : buy_block stock
               = mkVerdict BUY $70
                   "Price above SMA20 & EMA50 with bullish momentum.").
  { unfold buy_block. cbv zeta.
    destruct (short_history_detectors stock BULLISH Hp Hhl Hv)
      as (-> & -> & -> & -> & -> & -> & ->).
    rewrite detectLiquiditySweep_none. reflexivity. }
  assert (SB : sell_block stock
               = mkVerdict SELL $70
                   "Price below SMA20 & EMA50 with bearish momentum.").
  { unfold sell_block. cbv zeta.
    destruct (short_history_detectors stock BEARISH Hp Hhl Hv)
      as (-> & -> & -> & -> & -> & -> & ->).
    rewrite detectLiquiditySweep_none. reflexivity. }
  rewrite signal_cases.
  unfold generateSMCSignal, combined_logic. cbv zeta.
  cbn [confidence explanation].
  destruct (buy_gate stock) eqn:B.
  - rewrite (gates_exclusive _ B), BB. split; reflexivity.
  - destruct (sell_gate stock); [rewrite SB|]; split; reflexivity.
Qed.



(** X20. The direction, the stoploss, the targets and the entry price of
    a generated signal depend on the closes, the current price and the
    previous close only: highs, lows and volumes (the detectors' other
    inputs) move the confidence and the explanation, never the call or
    its levels. *)
Theorem direction_ignores_detectors (stock stock' : Api.StockData) :
  Api.prices stock' = Api.prices stock ->
  Api.current stock' = Api.current stock ->
  Api.previousClose stock' = Api.previousClose stock ->
  let r := generateSMCSignal stock in
  let r' := generateSMCSignal stock' in
  signal r' = signal r /\ stoploss r' = stoploss r
  /\ targets r' = targets r /\ entryPrice r' = entryPrice r.
Proof.
  intros Hp Hc Hv. cbv zeta.
  assert (S : signal (generateSMCSignal stock')
              = signal (generateSMCSignal stock)).
  { rewrite !signal_cases. unfold buy_gate, sell_gate, change. cbv zeta.
    rewrite Hp, Hc, Hv. reflexivity. }
  rewrite !stoploss_cases, !targets_cases, S, Hc.
  repeat split. simpl. rewrite Hc. reflexivity.
Qed.

(** X21. On an unresolved record whose status is ACTIVE, the end-of-day
    evaluation of a day that never left one price gives the status that a
    live tick at that price gives; the two differ in that the end-of-day
    evaluation resolves the record in every case, the tick only on a
    stop or a target. *)
Theorem flat_day_is_a_tick
    (now : string) (s : SignalResult) (price : number) :
  truthy (resolved s) = false ->
  hitStatus s = ACTIVE ->
  hitStatus (evaluateEndOfDayResult now s price price price)
  = hitStatus (updateHitStatus now s price)
  /\ resolved (evaluateEndOfDayResult now s price price price) = Some true
  /\ (breaches s price price = false ->
      resolved (updateHitStatus now s price) = resolved s).
Proof.
  intros R A. unfold evaluateEndOfDayResult, updateHitStatus, breaches.
  rewrite R.
  destruct (signal s);
    repeat match goal with
           | |- context [if ?b then _ else _] => destruct b
           end; simpl; rewrite ?A; repeat split; intros; try reflexivity;
    discriminate.
Qed.

(** *** The further properties at sample inputs *)

Lemma trade_wrappers_follow_signal_witness :
  resolved (generateSMCSignal buy_sample) = Some false
  /\ resolvedAt (generateSMCSignal buy_sample) = None
  /\ TradeManager.updateLiveTrade midnight
       (TradeManager.signalToTradeResult (generateSMCSignal buy_sample) "UP")
       $114
     = TradeManager.signalToTradeResult
         (updateHitStatus midnight (generateSMCSignal buy_sample) $114) "UP".
Proof.
  split; [reflexivity|]. split; [reflexivity|].
  exact (proj1 (proj2 (@trade_wrappers_follow_signal midnight
                         (generateSMCSignal buy_sample) "UP" false
                         $114 $114 $114 $114 eq_refl eq_refl))).
Defined.

Lemma generated_trade_tag_witness :
  Api.current sell_sample = Fin 188
  /\ (0 < 188)%Q
  /\ TradeManager.bos
       (TradeManager.signalToTradeResult (generateSMCSignal sell_sample) "DOWN")
     = Some TradeManager.CHoCH.
Proof.
  split; [reflexivity|]. split; [reflexivity|].
  rewrite (@generated_trade_tag sell_sample "DOWN" 188 eq_refl eq_refl).
  vm_compute. reflexivity.
Defined.

Lemma computeAccuracy_order_free_witness :
  Permutation stored_trades (rev stored_trades)
  /\ TradeManager.computeAccuracy stored_trades
     = TradeManager.computeAccuracy (rev stored_trades).
Proof.
  assert (P : Permutation stored_trades (rev stored_trades))
    by apply Permutation_rev.
  split; [exact P|]. exact (computeAccuracy_order_free P).
Defined.

Lemma sanitizeArray_fill_witness :
  is_price $0 = false
  /\ FetchStockData.sanitizeArray raw_series = [$1; $100; $100; $100]
  /\ nth 2 (FetchStockData.sanitizeArray ([NaN; $100] ++ $0 :: [PInf])) NaN
     = $100.
Proof.
  split; [reflexivity|]. split; [reflexivity|].
  exact (@sanitizeArray_fill [NaN; $100] [PInf] $0 eq_refl).
Defined.

Lemma replaceTrade_one_per_symbol_witness :
  TradeManager.symbol (sample_trade "A" TARGET (Some true)) = "A"%string
  /\ HomeScreen.findTrade
       (HomeScreen.replaceTrade stored_trades "A"
          (sample_trade "A" TARGET (Some true))) "A"
     = Some (sample_trade "A" TARGET (Some true)).
Proof.
  split; [reflexivity|].
  exact (proj1 (@replaceTrade_one_per_symbol stored_trades "A"
                  (sample_trade "A" TARGET (Some true)) eq_refl)).
Defined.

Lemma stored_trades_symbols : NoDup (map TradeManager.symbol stored_trades).
Proof.
  simpl. constructor.
  - intros [H|[]]. discriminate H.
  - constructor; [intros [] | constructor].
Defined.

Lemma live_feed_store_keeps_accuracy_witness :
  NoDup (map TradeManager.symbol stored_trades)
  /\ map TradeManager.hitStatus
       (HomeScreen.onTick midnight stored_trades "A" $101)
     = [TARGET; STOP]
  /\ TradeManager.computeAccuracy
       (HomeScreen.onTick midnight stored_trades "A" $101)
     = TradeManager.computeAccuracy stored_trades.
Proof.
  split; [exact stored_trades_symbols|]. split; [vm_compute; reflexivity|].
  exact (proj2 (@live_feed_store_keeps_accuracy midnight stored_trades "A"
                  $101 stored_trades_symbols)).
Defined.

Lemma detectBOS_detectCHoCH_agree_witness :
  Arr.from_end (Api.highs buy_sample) 3 = Fin 112
  /\ (0 <= 112)%Q
  /\ Arr.from_end (Api.lows buy_sample) 3 = Fin 110
  /\ (0 <= 110)%Q
  /\ detectBOS (Api.highs buy_sample) (Api.lows buy_sample) = Some BULLISH
  /\ detectCHoCH (Api.highs buy_sample) (Api.lows buy_sample)
     <> Some BEARISH.
Proof.
  assert (B : detectBOS (Api.highs buy_sample) (Api.lows buy_sample)
              = Some BULLISH) by (vm_compute; reflexivity).
  split; [reflexivity|]. split; [discriminate|].
  split; [reflexivity|]. split; [discriminate|]. split; [exact B|].
  refine (proj1 (@detectBOS_detectCHoCH_agree (Api.highs buy_sample)
                   (Api.lows buy_sample) 112 110 eq_refl _ eq_refl _) B);
    discriminate.
Defined.

Lemma short_history_base_signal_witness :
  (length (Api.prices quote_only_sample) < 5)%nat
  /\ (length (Api.highs quote_only_sample) < 3)%nat
  /\ (length (Api.volumes quote_only_sample) < 10)%nat
  /\ signal (generateSMCSignal quote_only_sample) = BUY
  /\ confidence (generateSMCSignal quote_only_sample) = $70.
Proof.
  assert (B : signal (generateSMCSignal quote_only_sample) = BUY)
    by (vm_compute; reflexivity).
  split; [simpl; lia|]. split; [simpl; lia|]. split; [simpl; lia|].
  split; [exact B|].
  pose proof (@short_history_base_signal quote_only_sample
                ltac:(simpl; lia) ltac:(left; simpl; lia) ltac:(simpl; lia))
    as H.
  cbv zeta in H. rewrite B in H. exact (proj1 H).
Defined.


Lemma direction_ignores_detectors_witness :
  Api.prices (without_bars buy_sample) = Api.prices buy_sample
  /\ signal (generateSMCSignal (without_bars buy_sample))
     = signal (generateSMCSignal buy_sample)
  /\ confidence (generateSMCSignal (without_bars buy_sample))
     <> confidence (generateSMCSignal buy_sample).
Proof.
  split; [reflexivity|].
  split.
  - exact (proj1 (@direction_ignores_detectors buy_sample
                    (without_bars buy_sample) eq_refl eq_refl eq_refl)).
  - vm_compute. discriminate.
Defined.

Lemma flat_day_is_a_tick_witness :
  truthy (resolved (sample_signal BUY ACTIVE (Some false))) = false
  /\ hitStatus (sample_signal BUY ACTIVE (Some false)) = ACTIVE
  /\ hitStatus (evaluateEndOfDayResult midnight
                  (sample_signal BUY ACTIVE (Some false)) $94 $94 $94)
     = hitStatus (updateHitStatus midnight
                    (sample_signal BUY ACTIVE (Some false)) $94).
Proof.
  split; [reflexivity|]. split; [reflexivity|].
  exact (proj1 (@flat_day_is_a_tick midnight
                  (sample_signal BUY ACTIVE (Some false)) $94
                  eq_refl eq_refl)).
Defined.


